(** * Storage lifecycle controller of Infinity: mode state machine

    Shallow embedding of [Storage::SetStorageMode] and its companions
    ([GetStorageMode], [SetReaderStorageContinue], [AttachCatalog],
    [LoadFullCheckpoint], [AttachDeltaCheckpoint], [CreateDefaultDB],
    [result_cache_manager]) from the [storage] module implementation, and
    the properties of the mode transitions that the specification states.

    The controller owns a dozen [UniquePtr] members.  A member is modelled
    as an [option]: [None] is [nullptr].  The objects behind the pointers
    are collaborators whose classes live in other modules; each is modelled
    by the part of its state that the controller acts on (started or
    stopped, the triggers installed, the trigger registered).  Every call
    the controller makes on a collaborator is also recorded, in program
    order, in an event trace.  [LOG_INFO] lines are not recorded. *)

From Stdlib Require Import String List ZArith Bool Lia.
Import ListNotations.
Local Open Scope string_scope.
Local Open Scope list_scope.
Local Open Scope Z_scope.

(* ------------------------------------------------------------------ *)
(** ** Enumerations and status values *)

(** Modelled from the spec: the enumerations are declared in the module
    interface of [storage], which is not among the sources.  The
    enumerator names are the ones the implementation uses. *)
Inductive StorageMode : Set :=
| kUnInitialized
| kAdmin
| kReadable
| kWritable.

(** Modelled from the spec: [ReaderInitPhase] has a neutral value besides
    the two phases; the implementation only ever names [kPhase1] and
    [kPhase2]. *)
Inductive ReaderInitPhase : Set :=
| kPhaseNone
| kPhase1
| kPhase2.

(** The switch over the storage type has the cases [kLocal] and [kMinio]
    and a [default] that aborts; [kUnsupported] stands for every other
    enumerator. *)
Inductive StorageType : Set :=
| kLocal
| kMinio
| kUnsupported.

Inductive Status : Set :=
| OK
| Error (msg : string).

Definition ok (s : Status) : bool :=
  match s with OK => true | Error _ => false end.

Definition StorageMode_eqb (a b : StorageMode) : bool :=
  match a, b with
  | kUnInitialized, kUnInitialized => true
  | kAdmin, kAdmin => true
  | kReadable, kReadable => true
  | kWritable, kWritable => true
  | _, _ => false
  end.

Definition ReaderInitPhase_eqb (a b : ReaderInitPhase) : bool :=
  match a, b with
  | kPhaseNone, kPhaseNone => true
  | kPhase1, kPhase1 => true
  | kPhase2, kPhase2 => true
  | _, _ => false
  end.

Inductive ConflictType : Set :=
| kIgnore
| kError
| kReplace.

(* ------------------------------------------------------------------ *)
(** ** Configuration and the environment of one call *)

(** The configuration entries that decide control flow or end up in a
    collaborator's modelled state.  Directory names, thresholds and sizes
    that are only handed to constructors are left out, except
    [PersistenceDir], whose emptiness is tested. *)
Record Config : Set := mkConfig {
  StorageType_ : StorageType;
  PersistenceDir : string;
  ResultCache : string;
  CacheResultNum : Z;
  CompactInterval : Z;
  OptimizeIndexInterval : Z;
  CleanupInterval : Z;
  FullCheckpointInterval : Z;
  DeltaCheckpointInterval : Z
}.

(** What the collaborators answer during one call of [SetStorageMode]:
    the status of [VirtualStore::InitRemoteStore], the timestamp returned
    by [WalManager::ReplayWalFile], whether the replay attached a catalog
    through its back-reference to the controller, and the status of
    [Txn::CreateDatabase]. *)
Record Env : Set := mkEnv {
  init_remote_status : Status;
  replay_ts : Z;
  replay_attaches_catalog : bool;
  create_db_status : Status
}.

(* ------------------------------------------------------------------ *)
(** ** Collaborators *)

Inductive Component : Set :=
| Wal
| CatalogC
| TxnMgr
| BufferMgr
| Persistence
| ObjectStorage
| BgProcessor
| Compactor
| MemIndexTracer
| PeriodicThread
| ResultCacheC
| CleanupTracer.

(** Modelled from the spec: the classes of the collaborators (WAL manager,
    catalog, transaction manager, buffer manager, the processors, the
    periodic trigger thread, the tracers, the result cache) are in other
    modules, not among the sources.  Of each, the model keeps the state
    that the controller's calls act on. *)

(** A collaborator with [Start] and [Stop]. *)
Record Service : Set := mkService { running : bool }.

Record Catalog : Set := mkCatalog {
  from_checkpoint : bool;
  delta_checkpoints : nat;
  compaction_alg_ts : option Z;
  memory_index_commit : bool
}.

Record BGTaskProcessor : Set := mkBG {
  bg_running : bool;
  bg_cleanup_trigger : option Z
}.

(** A trigger is modelled by its interval in seconds. *)
Record PeriodicTriggerThread : Set := mkPeriodic {
  full_checkpoint_trigger_ : option Z;
  delta_checkpoint_trigger_ : option Z;
  compact_segment_trigger_ : option Z;
  optimize_index_trigger_ : option Z;
  cleanup_trigger_ : option Z;
  periodic_running : bool
}.

Record ResultCacheManager : Set := mkResultCache { cache_num : Z }.

(** A collaborator none of whose state the controller acts on. *)
Inductive Object : Set := object.

(** The members of [Storage]. *)
Record Storage : Set := mkStorage {
  current_storage_mode_ : StorageMode;
  reader_init_phase_ : ReaderInitPhase;
  wal_mgr_ : option Service;
  new_catalog_ : option Catalog;
  txn_mgr_ : option Service;
  buffer_mgr_ : option Service;
  persistence_manager_ : option Object;
  object_storage_processor_ : option Service;
  bg_processor_ : option BGTaskProcessor;
  compact_processor_ : option Service;
  memory_index_tracer_ : option Object;
  periodic_trigger_thread_ : option PeriodicTriggerThread;
  result_cache_manager_ : option ResultCacheManager;
  cleanup_info_tracer_ : option Object
}.

(** Modelled from the spec: [VirtualStore] (module [virtual_store], not
    among the sources) is a process-wide singleton with [IsInit],
    [InitRemoteStore] and [UnInitRemoteStore]; it is modelled by the flag
    that [IsInit] reads. *)
Record World : Set := mkWorld {
  storage : Storage;
  remote_store_init : bool
}.

Inductive Event : Set :=
| EvLogWarn (msg : string)
| EvConstruct (c : Component)
| EvDrop (c : Component)
| EvStart (c : Component)
| EvStop (c : Component)
| EvInitRemoteStore (result : Status)
| EvUnInitRemoteStore
| EvReplayWalFile (target : StorageMode) (ts : Z)
| EvLoadCatalog (deltas : nat)
| EvAttachDeltaCheckpoint
| EvInitCompactionAlg (ts : Z)
| EvBuiltinFunctionsInit
| EvStartMemoryIndexCommit
| EvMemIndexRecover (ts : Z)
| EvSetCleanupTrigger (interval : Z)
| EvBeginTxn (text : string)
| EvSetReaderAllowed (allowed : bool)
| EvCreateDatabase (db : string) (conflict : ConflictType) (comment : string)
                   (result : Status)
| EvCommitTxn
| EvSubmitForceCheckpoint (ts : Z)
| EvWaitTask.

(* ------------------------------------------------------------------ *)
(** ** Member updates *)

Definition set_current_storage_mode_ (v : StorageMode) (s : Storage) : Storage :=
  mkStorage v (reader_init_phase_ s) (wal_mgr_ s) (new_catalog_ s) (txn_mgr_ s)
    (buffer_mgr_ s) (persistence_manager_ s) (object_storage_processor_ s)
    (bg_processor_ s) (compact_processor_ s) (memory_index_tracer_ s)
    (periodic_trigger_thread_ s) (result_cache_manager_ s) (cleanup_info_tracer_ s).

Definition set_reader_init_phase_ (v : ReaderInitPhase) (s : Storage) : Storage :=
  mkStorage (current_storage_mode_ s) v (wal_mgr_ s) (new_catalog_ s) (txn_mgr_ s)
    (buffer_mgr_ s) (persistence_manager_ s) (object_storage_processor_ s)
    (bg_processor_ s) (compact_processor_ s) (memory_index_tracer_ s)
    (periodic_trigger_thread_ s) (result_cache_manager_ s) (cleanup_info_tracer_ s).

Definition set_wal_mgr_ (v : option Service) (s : Storage) : Storage :=
  mkStorage (current_storage_mode_ s) (reader_init_phase_ s) v (new_catalog_ s)
    (txn_mgr_ s) (buffer_mgr_ s) (persistence_manager_ s)
    (object_storage_processor_ s) (bg_processor_ s) (compact_processor_ s)
    (memory_index_tracer_ s) (periodic_trigger_thread_ s)
    (result_cache_manager_ s) (cleanup_info_tracer_ s).

Definition set_new_catalog_ (v : option Catalog) (s : Storage) : Storage :=
  mkStorage (current_storage_mode_ s) (reader_init_phase_ s) (wal_mgr_ s) v
    (txn_mgr_ s) (buffer_mgr_ s) (persistence_manager_ s)
    (object_storage_processor_ s) (bg_processor_ s) (compact_processor_ s)
    (memory_index_tracer_ s) (periodic_trigger_thread_ s)
    (result_cache_manager_ s) (cleanup_info_tracer_ s).

Definition set_txn_mgr_ (v : option Service) (s : Storage) : Storage :=
  mkStorage (current_storage_mode_ s) (reader_init_phase_ s) (wal_mgr_ s)
    (new_catalog_ s) v (buffer_mgr_ s) (persistence_manager_ s)
    (object_storage_processor_ s) (bg_processor_ s) (compact_processor_ s)
    (memory_index_tracer_ s) (periodic_trigger_thread_ s)
    (result_cache_manager_ s) (cleanup_info_tracer_ s).

Definition set_buffer_mgr_ (v : option Service) (s : Storage) : Storage :=
  mkStorage (current_storage_mode_ s) (reader_init_phase_ s) (wal_mgr_ s)
    (new_catalog_ s) (txn_mgr_ s) v (persistence_manager_ s)
    (object_storage_processor_ s) (bg_processor_ s) (compact_processor_ s)
    (memory_index_tracer_ s) (periodic_trigger_thread_ s)
    (result_cache_manager_ s) (cleanup_info_tracer_ s).

Definition set_persistence_manager_ (v : option Object) (s : Storage) : Storage :=
  mkStorage (current_storage_mode_ s) (reader_init_phase_ s) (wal_mgr_ s)
    (new_catalog_ s) (txn_mgr_ s) (buffer_mgr_ s) v
    (object_storage_processor_ s) (bg_processor_ s) (compact_processor_ s)
    (memory_index_tracer_ s) (periodic_trigger_thread_ s)
    (result_cache_manager_ s) (cleanup_info_tracer_ s).

Definition set_object_storage_processor_ (v : option Service) (s : Storage) : Storage :=
  mkStorage (current_storage_mode_ s) (reader_init_phase_ s) (wal_mgr_ s)
    (new_catalog_ s) (txn_mgr_ s) (buffer_mgr_ s) (persistence_manager_ s) v
    (bg_processor_ s) (compact_processor_ s) (memory_index_tracer_ s)
    (periodic_trigger_thread_ s) (result_cache_manager_ s) (cleanup_info_tracer_ s).

Definition set_bg_processor_ (v : option BGTaskProcessor) (s : Storage) : Storage :=
  mkStorage (current_storage_mode_ s) (reader_init_phase_ s) (wal_mgr_ s)
    (new_catalog_ s) (txn_mgr_ s) (buffer_mgr_ s) (persistence_manager_ s)
    (object_storage_processor_ s) v (compact_processor_ s)
    (memory_index_tracer_ s) (periodic_trigger_thread_ s)
    (result_cache_manager_ s) (cleanup_info_tracer_ s).

Definition set_compact_processor_ (v : option Service) (s : Storage) : Storage :=
  mkStorage (current_storage_mode_ s) (reader_init_phase_ s) (wal_mgr_ s)
    (new_catalog_ s) (txn_mgr_ s) (buffer_mgr_ s) (persistence_manager_ s)
    (object_storage_processor_ s) (bg_processor_ s) v
    (memory_index_tracer_ s) (periodic_trigger_thread_ s)
    (result_cache_manager_ s) (cleanup_info_tracer_ s).

Definition set_memory_index_tracer_ (v : option Object) (s : Storage) : Storage :=
  mkStorage (current_storage_mode_ s) (reader_init_phase_ s) (wal_mgr_ s)
    (new_catalog_ s) (txn_mgr_ s) (buffer_mgr_ s) (persistence_manager_ s)
    (object_storage_processor_ s) (bg_processor_ s) (compact_processor_ s) v
    (periodic_trigger_thread_ s) (result_cache_manager_ s) (cleanup_info_tracer_ s).

Definition set_periodic_trigger_thread_ (v : option PeriodicTriggerThread)
    (s : Storage) : Storage :=
  mkStorage (current_storage_mode_ s) (reader_init_phase_ s) (wal_mgr_ s)
    (new_catalog_ s) (txn_mgr_ s) (buffer_mgr_ s) (persistence_manager_ s)
    (object_storage_processor_ s) (bg_processor_ s) (compact_processor_ s)
    (memory_index_tracer_ s) v (result_cache_manager_ s) (cleanup_info_tracer_ s).

Definition set_result_cache_manager_ (v : option ResultCacheManager)
    (s : Storage) : Storage :=
  mkStorage (current_storage_mode_ s) (reader_init_phase_ s) (wal_mgr_ s)
    (new_catalog_ s) (txn_mgr_ s) (buffer_mgr_ s) (persistence_manager_ s)
    (object_storage_processor_ s) (bg_processor_ s) (compact_processor_ s)
    (memory_index_tracer_ s) (periodic_trigger_thread_ s) v (cleanup_info_tracer_ s).

Definition set_cleanup_info_tracer_ (v : option Object) (s : Storage) : Storage :=
  mkStorage (current_storage_mode_ s) (reader_init_phase_ s) (wal_mgr_ s)
    (new_catalog_ s) (txn_mgr_ s) (buffer_mgr_ s) (persistence_manager_ s)
    (object_storage_processor_ s) (bg_processor_ s) (compact_processor_ s)
    (memory_index_tracer_ s) (periodic_trigger_thread_ s)
    (result_cache_manager_ s) v.

(** A member together with the way to read and write it. *)
Record Member (T : Set) : Set := mkMember {
  m_component : Component;
  m_get : Storage -> option T;
  m_set : option T -> Storage -> Storage
}.
Arguments mkMember {T}.
Arguments m_component {T}.
Arguments m_get {T}.
Arguments m_set {T}.

Definition wal_m := mkMember Wal wal_mgr_ set_wal_mgr_.
Definition catalog_m := mkMember CatalogC new_catalog_ set_new_catalog_.
Definition txn_m := mkMember TxnMgr txn_mgr_ set_txn_mgr_.
Definition buffer_m := mkMember BufferMgr buffer_mgr_ set_buffer_mgr_.
Definition persistence_m :=
  mkMember Persistence persistence_manager_ set_persistence_manager_.
Definition object_storage_m :=
  mkMember ObjectStorage object_storage_processor_ set_object_storage_processor_.
Definition bg_m := mkMember BgProcessor bg_processor_ set_bg_processor_.
Definition compact_m := mkMember Compactor compact_processor_ set_compact_processor_.
Definition memidx_m :=
  mkMember MemIndexTracer memory_index_tracer_ set_memory_index_tracer_.
Definition periodic_m :=
  mkMember PeriodicThread periodic_trigger_thread_ set_periodic_trigger_thread_.
Definition result_cache_m :=
  mkMember ResultCacheC result_cache_manager_ set_result_cache_manager_.
Definition cleanup_m :=
  mkMember CleanupTracer cleanup_info_tracer_ set_cleanup_info_tracer_.

(* ------------------------------------------------------------------ *)
(** ** The monad of the controller's member functions

    A member function runs on a [World].  It returns normally ([Done]),
    aborts the process through [UnrecoverableError] ([Fatal]), or calls a
    member function through a null [UniquePtr] ([NullDeref]).  Each outcome
    carries the events of the call, oldest first. *)

Inductive Outcome (A : Type) : Type :=
| Done (a : A) (w : World) (tr : list Event)
| Fatal (msg : string) (tr : list Event)
| NullDeref (tr : list Event).
Arguments Done {A}.
Arguments Fatal {A}.
Arguments NullDeref {A}.

Definition M (A : Type) : Type := World -> Outcome A.

Definition ret {A} (a : A) : M A := fun w => Done a w [].

Definition bind {A B} (m : M A) (f : A -> M B) : M B :=
  fun w =>
    match m w with
    | Done a w1 t1 =>
        match f a w1 with
        | Done b w2 t2 => Done b w2 (t1 ++ t2)
        | Fatal msg t2 => Fatal msg (t1 ++ t2)
        | NullDeref t2 => NullDeref (t1 ++ t2)
        end
    | Fatal msg t1 => Fatal msg t1
    | NullDeref t1 => NullDeref t1
    end.

Declare Scope storage_scope.
Delimit Scope storage_scope with storage.
Notation "x <- m ;; k" := (bind m (fun x => k))
  (at level 61, m at next level, right associativity) : storage_scope.
Notation "m ;; k" := (bind m (fun _ => k))
  (at level 61, right associativity) : storage_scope.
Local Open Scope storage_scope.

Definition emit (e : Event) : M unit := fun w => Done tt w [e].

Definition UnrecoverableError {A} (msg : string) : M A := fun _ => Fatal msg [].

Definition null_deref {A} : M A := fun _ => NullDeref [].

Definition get_storage : M Storage := fun w => Done (storage w) w [].

Definition modify_storage (f : Storage -> Storage) : M unit :=
  fun w => Done tt (mkWorld (f (storage w)) (remote_store_init w)) [].

Definition when (b : bool) (m : M unit) : M unit := if b then m else ret tt.

Definition is_some {T} (o : option T) : bool :=
  match o with Some _ => true | None => false end.

(** [p != nullptr] *)
Definition not_null {T : Set} (p : Member T) : M bool :=
  s <- get_storage ;; ret (is_some (m_get p s)).

(** [p.reset()]: destroys the object if there is one. *)
Definition reset {T : Set} (p : Member T) : M unit :=
  s <- get_storage ;;
  match m_get p s with
  | Some _ => modify_storage (m_set p None) ;; emit (EvDrop (m_component p))
  | None => ret tt
  end.

(** [p = MakeUnique<T>(...)]: the new object is constructed, then the old
    one, if any, is destroyed. *)
Definition make_unique {T : Set} (p : Member T) (v : T) : M unit :=
  s <- get_storage ;;
  emit (EvConstruct (m_component p)) ;;
  when (is_some (m_get p s)) (emit (EvDrop (m_component p))) ;;
  modify_storage (m_set p (Some v)).

(** [p->f(...)]: a call through the pointer, which changes the object by
    [f] and is recorded as [e]. *)
Definition call {T : Set} (p : Member T) (f : T -> T) (e : Event) : M unit :=
  s <- get_storage ;;
  match m_get p s with
  | Some x => modify_storage (m_set p (Some (f x))) ;; emit e
  | None => null_deref
  end.

(** [p->field = ...]: an assignment to a data member through the pointer. *)
Definition assign_through {T : Set} (p : Member T) (f : T -> T) : M unit :=
  s <- get_storage ;;
  match m_get p s with
  | Some x => modify_storage (m_set p (Some (f x)))
  | None => null_deref
  end.

Definition Start (_ : Service) : Service := mkService true.
Definition Stop (_ : Service) : Service := mkService false.

Definition start {T : Set} (p : Member T) (f : T -> T) : M unit :=
  call p f (EvStart (m_component p)).
Definition stop {T : Set} (p : Member T) (f : T -> T) : M unit :=
  call p f (EvStop (m_component p)).

Definition bg_Start (b : BGTaskProcessor) : BGTaskProcessor :=
  mkBG true (bg_cleanup_trigger b).
Definition bg_Stop (b : BGTaskProcessor) : BGTaskProcessor :=
  mkBG false (bg_cleanup_trigger b).
Definition SetCleanupTrigger (t : option Z) (b : BGTaskProcessor) : BGTaskProcessor :=
  mkBG (bg_running b) t.

Definition periodic_Start (p : PeriodicTriggerThread) : PeriodicTriggerThread :=
  mkPeriodic (full_checkpoint_trigger_ p) (delta_checkpoint_trigger_ p)
    (compact_segment_trigger_ p) (optimize_index_trigger_ p) (cleanup_trigger_ p) true.
Definition periodic_Stop (p : PeriodicTriggerThread) : PeriodicTriggerThread :=
  mkPeriodic (full_checkpoint_trigger_ p) (delta_checkpoint_trigger_ p)
    (compact_segment_trigger_ p) (optimize_index_trigger_ p) (cleanup_trigger_ p) false.

(** The four triggers that only the writable mode installs. *)
Definition set_writable_triggers (full delta compact optimize : Z)
    (p : PeriodicTriggerThread) : PeriodicTriggerThread :=
  mkPeriodic (Some full) (Some delta) (Some compact) (Some optimize)
    (cleanup_trigger_ p) (periodic_running p).
Definition set_cleanup_trigger (cleanup : Z) (p : PeriodicTriggerThread)
    : PeriodicTriggerThread :=
  mkPeriodic (full_checkpoint_trigger_ p) (delta_checkpoint_trigger_ p)
    (compact_segment_trigger_ p) (optimize_index_trigger_ p) (Some cleanup)
    (periodic_running p).

(** [MakeUnique<PeriodicTriggerThread>()]: no trigger, not running. *)
Definition new_periodic : PeriodicTriggerThread :=
  mkPeriodic None None None None None false.

(** [Catalog::NewCatalog()] and a catalog loaded from checkpoint files. *)
Definition NewCatalog : Catalog := mkCatalog false 0 None false.
Definition LoadFromFiles (deltas : nat) : Catalog := mkCatalog true deltas None false.

Definition InitCompactionAlg (ts : Z) (c : Catalog) : Catalog :=
  mkCatalog (from_checkpoint c) (delta_checkpoints c) (Some ts) (memory_index_commit c).
Definition StartMemoryIndexCommit (c : Catalog) : Catalog :=
  mkCatalog (from_checkpoint c) (delta_checkpoints c) (compaction_alg_ts c) true.
Definition catalog_AttachDeltaCheckpoint (c : Catalog) : Catalog :=
  mkCatalog (from_checkpoint c) (S (delta_checkpoints c)) (compaction_alg_ts c)
    (memory_index_commit c).

(** [x > 0 ? x : 0] *)
Definition positive_or_zero (x : Z) : Z := if 0 <? x then x else 0.

(** [SizeT] is an unsigned 64-bit integer; a signed setting stored in a
    [SizeT] variable is reduced modulo [2^64]. *)
Definition SizeT_modulus : Z := 2 ^ 64.

Definition to_SizeT (x : Z) : Z := x mod SizeT_modulus.

(** Modelled from the spec: the three operations of [VirtualStore]. *)
Definition IsInit : M bool := fun w => Done (remote_store_init w) w [].
Definition InitRemoteStore (result : Status) : M Status :=
  fun w => Done result (mkWorld (storage w) (ok result)) [EvInitRemoteStore result].
Definition UnInitRemoteStore : M unit :=
  fun w => Done tt (mkWorld (storage w) false) [EvUnInitRemoteStore].

(* ------------------------------------------------------------------ *)
(** ** The member functions of [Storage] *)

Section Controller.

Variable config_ptr_ : Config.

Definition set_mode (m : StorageMode) : M unit :=
  modify_storage (set_current_storage_mode_ m).

Definition set_phase (p : ReaderInitPhase) : M unit :=
  modify_storage (set_reader_init_phase_ p).

Definition GetStorageMode : M StorageMode :=
  s <- get_storage ;; ret (current_storage_mode_ s).

Definition GetResultCacheManagerPtr : M (option ResultCacheManager) :=
  s <- get_storage ;; ret (result_cache_manager_ s).

Definition result_cache_manager : M (option ResultCacheManager) :=
  if negb (String.eqb (ResultCache config_ptr_) "on") then ret None
  else GetResultCacheManagerPtr.

Definition AttachCatalog (deltas : nat) : M unit :=
  emit (EvLoadCatalog deltas) ;;
  make_unique catalog_m (LoadFromFiles deltas).

Definition LoadFullCheckpoint : M unit :=
  c <- not_null catalog_m ;;
  when c (UnrecoverableError "Catalog was already initialized before.") ;;
  emit (EvLoadCatalog 0) ;;
  make_unique catalog_m (LoadFromFiles 0).

Definition AttachDeltaCheckpoint : M unit :=
  call catalog_m catalog_AttachDeltaCheckpoint EvAttachDeltaCheckpoint.

Definition CreateDefaultDB (create_status : Status) : M unit :=
  call txn_m (fun t => t) (EvBeginTxn "create db1") ;;
  emit (EvSetReaderAllowed true) ;;
  emit (EvCreateDatabase "default_db" kError "Initial startup created" create_status) ;;
  when (negb (ok create_status)) (UnrecoverableError "Can't initial 'default_db'") ;;
  call txn_m (fun t => t) EvCommitTxn.

(** [wal_mgr_->ReplayWalFile(target_mode)]: the replay may attach the
    catalog it has rebuilt, and returns the system start timestamp. *)
Definition ReplayWalFile (env : Env) (target_mode : StorageMode) : M Z :=
  call wal_m (fun w => w) (EvReplayWalFile target_mode (replay_ts env)) ;;
  when (replay_attaches_catalog env) (AttachCatalog 0) ;;
  ret (replay_ts env).

(** The member must still be null; otherwise the process aborts. *)
Definition expect_null {T : Set} (p : Member T) (msg : string) : M unit :=
  b <- not_null p ;; when b (UnrecoverableError msg).

(** [case StorageMode::kUnInitialized] *)
Definition from_UnInitialized (target_mode : StorageMode) : M Status :=
  when (negb (StorageMode_eqb target_mode kAdmin))
       (UnrecoverableError "Attempt to set storage mode from UnInit to UnInit") ;;
  set_mode target_mode ;;
  expect_null wal_m "WAL manager was initialized before." ;;
  make_unique wal_m (mkService false) ;;
  ret OK.

(** The [switch (config_ptr_->StorageType())] of the bring-up.  [Some st]
    is the early [return status]. *)
Definition init_remote_store (env : Env) (current_mode : StorageMode)
    : M (option Status) :=
  match StorageType_ config_ptr_ with
  | kLocal => ret None
  | kMinio =>
      i <- IsInit ;;
      when i (UnrecoverableError "remote storage system was initialized before.") ;;
      status <- InitRemoteStore (init_remote_status env) ;;
      if negb (ok status) then
        set_mode current_mode ;;
        UnInitRemoteStore ;;
        ret (Some status)
      else
        expect_null object_storage_m "Object storage processor was initialized before." ;;
        make_unique object_storage_m (mkService false) ;;
        start object_storage_m Start ;;
        ret None
  | kUnsupported => UnrecoverableError "Unsupported storage type"
  end.

(** The bring-up after the buffer manager has been started and the target
    was not left at the reader's first phase. *)
Definition bring_up_catalog (env : Env) (target_mode : StorageMode) : M Status :=
  system_start_ts <- ReplayWalFile env target_mode ;;
  when (system_start_ts =? 0) (make_unique catalog_m NewCatalog) ;;
  let compact_interval := positive_or_zero (CompactInterval config_ptr_) in
  s <- get_storage ;;
  when ((0 <? compact_interval)
        && StorageMode_eqb (current_storage_mode_ s) kWritable)
       (call catalog_m (InitCompactionAlg system_start_ts)
             (EvInitCompactionAlg system_start_ts)) ;;
  emit EvBuiltinFunctionsInit ;;
  expect_null bg_m "Background processor was initialized before." ;;
  make_unique bg_m (mkBG false None) ;;
  expect_null txn_m "Transaction manager was initialized before." ;;
  make_unique txn_m (mkService false) ;;
  start txn_m Start ;;
  start wal_m Start ;;
  when ((system_start_ts =? 0) && StorageMode_eqb target_mode kWritable)
       (CreateDefaultDB (create_db_status env)) ;;
  expect_null memidx_m "Memory index tracer was initialized before." ;;
  make_unique memidx_m object ;;
  start bg_m bg_Start ;;
  when (StorageMode_eqb target_mode kWritable)
       (expect_null compact_m "compact processor was initialized before." ;;
        make_unique compact_m (mkService false) ;;
        start compact_m Start) ;;
  call catalog_m StartMemoryIndexCommit EvStartMemoryIndexCommit ;;
  call catalog_m (fun c => c) (EvMemIndexRecover system_start_ts) ;;
  expect_null periodic_m "periodic trigger was initialized before." ;;
  make_unique periodic_m new_periodic ;;
  let optimize_interval := positive_or_zero (OptimizeIndexInterval config_ptr_) in
  let cleanup_interval := positive_or_zero (CleanupInterval config_ptr_) in
  let full_checkpoint_interval_sec :=
    positive_or_zero (FullCheckpointInterval config_ptr_) in
  let delta_checkpoint_interval_sec :=
    positive_or_zero (DeltaCheckpointInterval config_ptr_) in
  when (StorageMode_eqb target_mode kWritable)
       (assign_through periodic_m
          (set_writable_triggers full_checkpoint_interval_sec
             delta_checkpoint_interval_sec compact_interval optimize_interval)) ;;
  assign_through periodic_m (set_cleanup_trigger cleanup_interval) ;;
  call bg_m (SetCleanupTrigger (Some cleanup_interval))
       (EvSetCleanupTrigger cleanup_interval) ;;
  (if StorageMode_eqb target_mode kWritable then
     call txn_m (fun t => t) (EvBeginTxn "ForceCheckpointTask") ;;
     call bg_m (fun b => b) (EvSubmitForceCheckpoint system_start_ts) ;;
     emit EvWaitTask ;;
     emit (EvSetReaderAllowed true) ;;
     call txn_m (fun t => t) EvCommitTxn
   else set_phase kPhase2) ;;
  start periodic_m periodic_Start ;;
  ret OK.

(** [case StorageMode::kAdmin] *)
Definition from_Admin (env : Env) (current_mode target_mode : StorageMode)
    : M Status :=
  when (StorageMode_eqb target_mode kAdmin)
       (UnrecoverableError "Attempt to set storage mode from Admin to Admin") ;;
  if StorageMode_eqb target_mode kUnInitialized then
    reset wal_m ;;
    ret OK
  else
    set_mode target_mode ;;
    early <- init_remote_store env current_mode ;;
    match early with
    | Some status => ret status
    | None =>
        when (negb (String.eqb (PersistenceDir config_ptr_) ""))
             (expect_null persistence_m "persistence_manager was initialized before." ;;
              make_unique persistence_m object) ;;
        (* SizeT cache_result_num = config_ptr_->CacheResultNum(); *)
        let cache_result_num := to_SizeT (CacheResultNum config_ptr_) in
        r <- not_null result_cache_m ;;
        when (negb r)
             (make_unique result_cache_m (mkResultCache cache_result_num)) ;;
        expect_null buffer_m "Buffer manager was initialized before." ;;
        make_unique buffer_m (mkService false) ;;
        start buffer_m Start ;;
        s <- get_storage ;;
        if StorageMode_eqb (current_storage_mode_ s) kReadable then
          set_phase kPhase1 ;;
          ret OK
        else bring_up_catalog env target_mode
    end.

(** [if (p != nullptr) { p->Stop(); p.reset(); }] *)
Definition stop_and_reset {T : Set} (p : Member T) (f : T -> T) : M unit :=
  b <- not_null p ;; when b (stop p f ;; reset p).

(** The same for a member that the reader only has in its second phase. *)
Definition stop_and_reset_phase2 {T : Set} (p : Member T) (f : T -> T) : M unit :=
  b <- not_null p ;;
  when b
    (s <- get_storage ;;
     when (negb (ReaderInitPhase_eqb (reader_init_phase_ s) kPhase2))
          (UnrecoverableError "Error reader init phase") ;;
     stop p f ;;
     reset p).

(** The [switch (config_ptr_->StorageType())] of the tear-down. *)
Definition uninit_remote_store : M unit :=
  match StorageType_ config_ptr_ with
  | kLocal => ret tt
  | kMinio =>
      b <- not_null object_storage_m ;;
      when b (stop object_storage_m Stop ;;
              reset object_storage_m ;;
              UnInitRemoteStore)
  | kUnsupported => UnrecoverableError "Unsupported storage type"
  end.

(** Readable to writable: the compaction processor and the writable
    triggers are added. *)
Definition promote_to_writable : M unit :=
  expect_null compact_m "compact processor was initialized before." ;;
  make_unique compact_m (mkService false) ;;
  start compact_m Start ;;
  stop periodic_m periodic_Stop ;;
  let compact_interval := positive_or_zero (CompactInterval config_ptr_) in
  let optimize_interval := positive_or_zero (OptimizeIndexInterval config_ptr_) in
  let full_checkpoint_interval_sec :=
    positive_or_zero (FullCheckpointInterval config_ptr_) in
  let delta_checkpoint_interval_sec :=
    positive_or_zero (DeltaCheckpointInterval config_ptr_) in
  assign_through periodic_m
    (set_writable_triggers full_checkpoint_interval_sec
       delta_checkpoint_interval_sec compact_interval optimize_interval) ;;
  start periodic_m periodic_Start.

(** [case StorageMode::kReadable] *)
Definition from_Readable (target_mode : StorageMode) : M Status :=
  when (StorageMode_eqb target_mode kReadable)
       (UnrecoverableError "Attempt to set storage mode from Readable to Readable") ;;
  when (StorageMode_eqb target_mode kUnInitialized
        || StorageMode_eqb target_mode kAdmin)
       (stop_and_reset_phase2 periodic_m periodic_Stop ;;
        expect_null compact_m "Compact processor shouldn't be set before" ;;
        stop_and_reset_phase2 bg_m bg_Stop ;;
        reset catalog_m ;;
        reset memidx_m ;;
        stop_and_reset wal_m Stop ;;
        uninit_remote_store ;;
        stop_and_reset_phase2 txn_m Stop ;;
        stop_and_reset buffer_m Stop ;;
        reset persistence_m ;;
        when (StorageMode_eqb target_mode kAdmin)
             (make_unique wal_m (mkService false))) ;;
  when (StorageMode_eqb target_mode kWritable) promote_to_writable ;;
  set_mode target_mode ;;
  ret OK.

(** Writable to readable: the compaction processor goes and the periodic
    thread is rebuilt with the cleanup trigger. *)
Definition demote_to_readable : M unit :=
  stop_and_reset periodic_m periodic_Stop ;;
  stop_and_reset compact_m Stop ;;
  let cleanup_interval := positive_or_zero (CleanupInterval config_ptr_) in
  make_unique periodic_m new_periodic ;;
  assign_through periodic_m (set_cleanup_trigger cleanup_interval) ;;
  call bg_m (SetCleanupTrigger (Some cleanup_interval))
       (EvSetCleanupTrigger cleanup_interval) ;;
  start periodic_m periodic_Start.

(** [case StorageMode::kWritable] *)
Definition from_Writable (target_mode : StorageMode) : M Status :=
  when (StorageMode_eqb target_mode kWritable)
       (UnrecoverableError "Attempt to set storage mode from Writable to Writable") ;;
  when (StorageMode_eqb target_mode kUnInitialized
        || StorageMode_eqb target_mode kAdmin)
       (stop_and_reset periodic_m periodic_Stop ;;
        stop_and_reset compact_m Stop ;;
        stop_and_reset bg_m bg_Stop ;;
        reset catalog_m ;;
        reset memidx_m ;;
        stop_and_reset wal_m Stop ;;
        uninit_remote_store ;;
        stop_and_reset txn_m Stop ;;
        stop_and_reset buffer_m Stop ;;
        reset persistence_m ;;
        when (StorageMode_eqb target_mode kAdmin)
             (make_unique wal_m (mkService false))) ;;
  when (StorageMode_eqb target_mode kReadable) demote_to_readable ;;
  set_mode target_mode ;;
  ret OK.

Definition SetStorageMode (env : Env) (target_mode : StorageMode) : M Status :=
  current_mode <- GetStorageMode ;;
  if StorageMode_eqb current_mode target_mode then
    emit (EvLogWarn "Set unchanged mode") ;;
    ret OK
  else
    make_unique cleanup_m object ;;
    match current_mode with
    | kUnInitialized => from_UnInitialized target_mode
    | kAdmin => from_Admin env current_mode target_mode
    | kReadable => from_Readable target_mode
    | kWritable => from_Writable target_mode
    end.

Definition SetReaderStorageContinue (system_start_ts : Z) : M Status :=
  current_mode <- GetStorageMode ;;
  when (negb (StorageMode_eqb current_mode kReadable))
       (UnrecoverableError "Expect current storage mode is READER") ;;
  emit EvBuiltinFunctionsInit ;;
  expect_null bg_m "Background processor was initialized before." ;;
  make_unique bg_m (mkBG false None) ;;
  expect_null txn_m "Transaction manager was initialized before." ;;
  make_unique txn_m (mkService false) ;;
  start txn_m Start ;;
  start wal_m Start ;;
  expect_null memidx_m "Memory index tracer was initialized before." ;;
  make_unique memidx_m object ;;
  call catalog_m StartMemoryIndexCommit EvStartMemoryIndexCommit ;;
  call catalog_m (fun c => c) (EvMemIndexRecover system_start_ts) ;;
  start bg_m bg_Start ;;
  expect_null periodic_m "periodic trigger was initialized before." ;;
  make_unique periodic_m new_periodic ;;
  let cleanup_interval := positive_or_zero (CleanupInterval config_ptr_) in
  assign_through periodic_m (set_cleanup_trigger cleanup_interval) ;;
  call bg_m (SetCleanupTrigger (Some cleanup_interval))
       (EvSetCleanupTrigger cleanup_interval) ;;
  start periodic_m periodic_Start ;;
  set_phase kPhase2 ;;
  ret OK.

(* ------------------------------------------------------------------ *)
(** ** Sequences of calls *)

(** The calls that drive the controller from outside.  The catalog is
    attached from outside only while a reader waits for it. *)
Inductive Op : Set :=
| OpSetStorageMode (env : Env) (target_mode : StorageMode)
| OpAttachCatalog (deltas : nat)
| OpSetReaderStorageContinue (system_start_ts : Z).

Definition run_op (o : Op) : M unit :=
  match o with
  | OpSetStorageMode env target_mode => SetStorageMode env target_mode ;; ret tt
  | OpAttachCatalog deltas => AttachCatalog deltas
  | OpSetReaderStorageContinue ts => SetReaderStorageContinue ts ;; ret tt
  end.

Definition permitted (o : Op) (w : World) : bool :=
  match o with
  | OpAttachCatalog _ => StorageMode_eqb (current_storage_mode_ (storage w)) kReadable
  | _ => true
  end.

(** The world after the calls, when each was permitted and returned. *)
Fixpoint run (ops : list Op) (w : World) : option World :=
  match ops with
  | [] => Some w
  | o :: rest =>
      if permitted o w then
        match run_op o w with
        | Done _ w' _ => run rest w'
        | _ => None
        end
      else None
  end.

End Controller.

(** The controller as constructed: every member null, the store not
    initialised.  The reader phase a fresh controller starts with is a
    default member initialiser in the module interface; it is left open. *)
Definition new_Storage (phase : ReaderInitPhase) : Storage :=
  mkStorage kUnInitialized phase None None None None None None None None None
    None None None.

Definition new_World (phase : ReaderInitPhase) : World :=
  mkWorld (new_Storage phase) false.

(* ------------------------------------------------------------------ *)
(** ** Vocabulary of the properties *)

Definition mode_of (w : World) : StorageMode := current_storage_mode_ (storage w).
Definition phase_of (w : World) : ReaderInitPhase := reader_init_phase_ (storage w).

Definition remote (cfg : Config) : bool :=
  match StorageType_ cfg with kMinio => true | _ => false end.

Definition unsupported (cfg : Config) : bool :=
  match StorageType_ cfg with kUnsupported => true | _ => false end.

Definition persistent (cfg : Config) : bool :=
  negb (String.eqb (PersistenceDir cfg) "").

(** The worlds reached from a fresh controller by permitted calls that
    all returned. *)
Definition reachable (cfg : Config) (w : World) : Prop :=
  exists phase ops, run cfg ops (new_World phase) = Some w.

(** What holds of the members in each mode, in every reachable world. *)
Definition consistent (cfg : Config) (w : World) : Prop :=
  let s := storage w in
  match current_storage_mode_ s with
  | kUnInitialized =>
      wal_mgr_ s = None /\ new_catalog_ s = None /\ txn_mgr_ s = None /\
      buffer_mgr_ s = None /\ persistence_manager_ s = None /\
      object_storage_processor_ s = None /\ bg_processor_ s = None /\
      compact_processor_ s = None /\ memory_index_tracer_ s = None /\
      periodic_trigger_thread_ s = None /\ remote_store_init w = false
  | kAdmin =>
      new_catalog_ s = None /\ txn_mgr_ s = None /\
      buffer_mgr_ s = None /\ persistence_manager_ s = None /\
      object_storage_processor_ s = None /\ bg_processor_ s = None /\
      compact_processor_ s = None /\ memory_index_tracer_ s = None /\
      periodic_trigger_thread_ s = None /\ remote_store_init w = false /\
      is_some (cleanup_info_tracer_ s) = true
  | kReadable =>
      compact_processor_ s = None /\
      is_some (buffer_mgr_ s) = true /\
      is_some (result_cache_manager_ s) = true /\
      is_some (cleanup_info_tracer_ s) = true /\
      is_some (object_storage_processor_ s) = remote cfg /\
      remote_store_init w = remote cfg /\
      is_some (persistence_manager_ s) = persistent cfg /\
      is_some (bg_processor_ s) = is_some (periodic_trigger_thread_ s) /\
      is_some (txn_mgr_ s) = is_some (periodic_trigger_thread_ s) /\
      is_some (memory_index_tracer_ s) = is_some (periodic_trigger_thread_ s) /\
      (is_some (periodic_trigger_thread_ s) = true ->
         is_some (new_catalog_ s) = true /\ is_some (wal_mgr_ s) = true) /\
      (reader_init_phase_ s = kPhase2 -> is_some (periodic_trigger_thread_ s) = true)
  | kWritable =>
      is_some (wal_mgr_ s) = true /\ is_some (new_catalog_ s) = true /\
      is_some (txn_mgr_ s) = true /\ is_some (buffer_mgr_ s) = true /\
      is_some (bg_processor_ s) = true /\ is_some (compact_processor_ s) = true /\
      is_some (memory_index_tracer_ s) = true /\
      is_some (periodic_trigger_thread_ s) = true /\
      is_some (result_cache_manager_ s) = true /\
      is_some (cleanup_info_tracer_ s) = true /\
      is_some (object_storage_processor_ s) = remote cfg /\
      remote_store_init w = remote cfg /\
      is_some (persistence_manager_ s) = persistent cfg
  end.

(** Every owned member is null, the cleanup tracer aside. *)
Definition all_absent_but_cleanup_tracer (s : Storage) : Prop :=
  wal_mgr_ s = None /\ new_catalog_ s = None /\ txn_mgr_ s = None /\
  buffer_mgr_ s = None /\ persistence_manager_ s = None /\
  object_storage_processor_ s = None /\ bg_processor_ s = None /\
  compact_processor_ s = None /\ memory_index_tracer_ s = None /\
  periodic_trigger_thread_ s = None /\ result_cache_manager_ s = None.

(** The same, the result cache aside as well. *)
Definition all_absent_but_cache_and_tracer (s : Storage) : Prop :=
  wal_mgr_ s = None /\ new_catalog_ s = None /\ txn_mgr_ s = None /\
  buffer_mgr_ s = None /\ persistence_manager_ s = None /\
  object_storage_processor_ s = None /\ bg_processor_ s = None /\
  compact_processor_ s = None /\ memory_index_tracer_ s = None /\
  periodic_trigger_thread_ s = None.

Definition is_fatal {A} (o : Outcome A) : bool :=
  match o with Fatal _ _ => true | _ => false end.

Definition trace_of {A} (o : Outcome A) : list Event :=
  match o with Done _ _ tr => tr | Fatal _ tr => tr | NullDeref tr => tr end.

(** *** Order of events *)

Definition Component_index (c : Component) : nat :=
  match c with
  | Wal => 0 | CatalogC => 1 | TxnMgr => 2 | BufferMgr => 3 | Persistence => 4
  | ObjectStorage => 5 | BgProcessor => 6 | Compactor => 7 | MemIndexTracer => 8
  | PeriodicThread => 9 | ResultCacheC => 10 | CleanupTracer => 11
  end%nat.

Definition Component_eqb (a b : Component) : bool :=
  Nat.eqb (Component_index a) (Component_index b).

(** The events the order properties speak of: the stops of the periodic
    thread and of the three processors, and the drops of the four
    managers. *)
Inductive Kind : Set :=
| KStop (c : Component)
| KDrop (c : Component).

Definition stop_matters (c : Component) : bool :=
  match c with
  | PeriodicThread | BgProcessor | Compactor | ObjectStorage => true
  | _ => false
  end.

Definition drop_matters (c : Component) : bool :=
  match c with
  | CatalogC | TxnMgr | Wal | BufferMgr => true
  | _ => false
  end.

Definition kind (e : Event) : list Kind :=
  match e with
  | EvStop c => if stop_matters c then [KStop c] else []
  | EvDrop c => if drop_matters c then [KDrop c] else []
  | _ => []
  end.

Definition kinds (tr : list Event) : list Kind := flat_map kind tr.

Definition k_stop (c : Component) (k : Kind) : bool :=
  match k with KStop c' => Component_eqb c c' | _ => false end.
Definition k_drop (c : Component) (k : Kind) : bool :=
  match k with KDrop c' => Component_eqb c c' | _ => false end.

Definition is_stop (c : Component) (e : Event) : bool :=
  match e with EvStop c' => Component_eqb c c' | _ => false end.
Definition is_drop (c : Component) (e : Event) : bool :=
  match e with EvDrop c' => Component_eqb c c' | _ => false end.

(** Every [p] comes before every [q]: position by position. *)
Definition precedes {A} (p q : A -> bool) (l : list A) : Prop :=
  forall i j a b,
    nth_error l i = Some a -> nth_error l j = Some b ->
    p a = true -> q b = true -> (i < j)%nat.

(** The same, computed: behind a [q] there is no [p], and none is both. *)
Fixpoint ordered {A} (p q : A -> bool) (l : list A) : bool :=
  match l with
  | [] => true
  | x :: r => (negb (q x) || (negb (p x) && negb (existsb p r))) && ordered p q r
  end.

(** The order the specification asks of a tear-down. *)
Definition stops_before_drops_as_stated (tr : list Event) : Prop :=
  (forall c, In c [BgProcessor; Compactor; ObjectStorage] ->
     precedes (is_stop PeriodicThread) (is_stop c) tr) /\
  (forall c d, In c [BgProcessor; Compactor; ObjectStorage] ->
     In d [CatalogC; TxnMgr; Wal; BufferMgr] ->
     precedes (is_stop c) (is_drop d) tr).

(** The order the tear-down keeps: the object storage processor is stopped
    after every drop of the catalog and of the WAL manager, and before the
    transaction manager and the buffer manager go. *)
Definition stops_before_drops (tr : list Event) : Prop :=
  (forall c, In c [BgProcessor; Compactor; ObjectStorage] ->
     precedes (is_stop PeriodicThread) (is_stop c) tr) /\
  (forall c d, In c [BgProcessor; Compactor] ->
     In d [CatalogC; TxnMgr; Wal; BufferMgr] ->
     precedes (is_stop c) (is_drop d) tr) /\
  (forall d, In d [TxnMgr; BufferMgr] ->
     precedes (is_stop ObjectStorage) (is_drop d) tr) /\
  (forall d, In d [CatalogC; Wal] ->
     precedes (is_drop d) (is_stop ObjectStorage) tr).

Definition stops_before_drops_k (l : list Kind) : bool :=
  forallb (fun c => ordered (k_stop PeriodicThread) (k_stop c) l)
          [BgProcessor; Compactor; ObjectStorage]
  && forallb (fun c => forallb (fun d => ordered (k_stop c) (k_drop d) l)
                               [CatalogC; TxnMgr; Wal; BufferMgr])
             [BgProcessor; Compactor]
  && forallb (fun d => ordered (k_stop ObjectStorage) (k_drop d) l)
             [TxnMgr; BufferMgr]
  && forallb (fun d => ordered (k_drop d) (k_stop ObjectStorage) l)
             [CatalogC; Wal].

Definition Component_eq_dec (a b : Component) : {a = b} + {a <> b}.
Proof. decide equality. Defined.

Definition Kind_eq_dec (a b : Kind) : {a = b} + {a <> b}.
Proof. decide equality; apply Component_eq_dec. Defined.

(** *** Two small program logics over [M] *)

(** [may m S]: whenever [m] returns, the stops and drops it made are one
    of the sequences in [S].  Nothing is asked of the world before. *)
Definition may {A} (m : M A) (S : list (list Kind)) : Prop :=
  forall w a w' tr, m w = Done a w' tr -> In (kinds tr) S.

Definition seq_sets (S1 S2 : list (list Kind)) : list (list Kind) :=
  nodup (list_eq_dec Kind_eq_dec) (flat_map (fun a => map (app a) S2) S1).

(** The same from the worlds in [P] only. *)
Definition may_from {A} (P : World -> Prop) (m : M A) (S : list (list Kind))
    : Prop :=
  forall w a w' tr, P w -> m w = Done a w' tr -> In (kinds tr) S.

(** There is no WAL manager. *)
Definition wal_is_null (w : World) : Prop := wal_mgr_ (storage w) = None.

(** [hoare P m Q]: from a world in [P], whenever [m] returns [a] the world
    is in [Q a]. *)
Definition hoare {A} (P : World -> Prop) (m : M A) (Q : A -> World -> Prop) : Prop :=
  forall w a w' tr, P w -> m w = Done a w' tr -> Q a w'.

Definition keeps {A} (P : World -> Prop) (m : M A) : Prop :=
  hoare P m (fun _ => P).

(** The result cache is the object [rc]. *)
Definition cache_is (rc : ResultCacheManager) (w : World) : Prop :=
  result_cache_manager_ (storage w) = Some rc.

(** Writing the member leaves the result cache alone. *)
Definition frames_cache {T : Set} (p : Member T) : Prop :=
  forall v s, result_cache_manager_ (m_set p v s) = result_cache_manager_ s.

(** *** The default database *)

(** The trace starts with the transaction that creates [default_db]. *)
Definition starts_default_db_txn (tr : list Event) : bool :=
  match tr with
  | EvBeginTxn t :: EvSetReaderAllowed true
      :: EvCreateDatabase db kError comment OK :: EvCommitTxn :: _ =>
      String.eqb t "create db1" && String.eqb db "default_db"
      && String.eqb comment "Initial startup created"
  | _ => false
  end.

(** The trace holds that transaction somewhere. *)
Fixpoint has_default_db_txn (tr : list Event) : bool :=
  match tr with
  | [] => false
  | e :: r => starts_default_db_txn (e :: r) || has_default_db_txn r
  end.

Definition is_create_database (e : Event) : bool :=
  match e with EvCreateDatabase _ _ _ _ => true | _ => false end.

Definition count_create_database (tr : list Event) : nat :=
  length (filter is_create_database tr).

(** [m] returns [a] in world [w'], whatever it has traced. *)
Definition steps_to {A} (m : M A) (w : World) (a : A) (w' : World) : Prop :=
  exists tr, m w = Done a w' tr.

(** An event predicate [P] is read off the kinds by [p]. *)
Definition reads (P : Event -> bool) (p : Kind -> bool) : Prop :=
  forall e, P e = existsb p (kind e).

Definition is_failed_create_database (e : Event) : bool :=
  match e with EvCreateDatabase _ _ _ (Error _) => true | _ => false end.

(** *** The tear-down of a reader without its second-phase members

    What the tear-down does in a world in the readable mode that has no
    periodic thread, compaction processor, background processor or
    transaction manager.  The object storage processor is looked at only
    with remote storage, and the remote store is uninitialised only when
    the processor was there. *)

(** The events [evs], when the member is there. *)
Definition if_present {T} (o : option T) (evs : list Event) : list Event :=
  if is_some o then evs else [].

Definition reader_torn_down (cfg : Config) (target : StorageMode) (w : World)
    : World :=
  let s := storage w in
  mkWorld
    (mkStorage target (reader_init_phase_ s)
       (if StorageMode_eqb target kAdmin then Some (mkService false) else None)
       None None None None
       (if remote cfg then None else object_storage_processor_ s)
       None None None None (result_cache_manager_ s) (Some object))
    (if remote cfg && is_some (object_storage_processor_ s) then false
     else remote_store_init w).

Definition reader_teardown_trace (cfg : Config) (target : StorageMode) (w : World)
    : list Event :=
  let s := storage w in
  EvConstruct CleanupTracer
  :: if_present (cleanup_info_tracer_ s) [EvDrop CleanupTracer]
  ++ if_present (new_catalog_ s) [EvDrop CatalogC]
  ++ if_present (memory_index_tracer_ s) [EvDrop MemIndexTracer]
  ++ if_present (wal_mgr_ s) [EvStop Wal; EvDrop Wal]
  ++ (if remote cfg
      then if_present (object_storage_processor_ s)
             [EvStop ObjectStorage; EvDrop ObjectStorage; EvUnInitRemoteStore]
      else [])
  ++ if_present (buffer_mgr_ s) [EvStop BufferMgr; EvDrop BufferMgr]
  ++ if_present (persistence_manager_ s) [EvDrop Persistence]
  ++ (if StorageMode_eqb target kAdmin then [EvConstruct Wal] else []).

(** *** Sample configurations, environments and worlds *)

(** Local storage, no persistence directory; remote storage with one.
    The intervals are, in the order of [Config]: compact 10, optimize 10,
    cleanup 10, full checkpoint 30, delta checkpoint 5. *)
Definition cfg_local : Config := mkConfig kLocal "" "on" 100 10 10 10 30 5.
Definition cfg_minio : Config :=
  mkConfig kMinio "/var/infinity/persistence" "on" 100 10 10 10 30 5.

(** A first start: nothing to replay, every collaborator answers OK. *)
Definition env_fresh : Env := mkEnv OK 0 false OK.
(** The remote store rejects the credentials. *)
Definition env_bad_remote : Env := mkEnv (Error "bad credentials") 0 false OK.
(** The replay rebuilt a catalog up to timestamp 42. *)
Definition env_replayed : Env := mkEnv OK 42 true OK.

Definition set_mode_ok (m : StorageMode) : Op := OpSetStorageMode env_fresh m.

(** After [SetStorageMode(kAdmin)] on a fresh controller. *)
Definition admin_world : World :=
  mkWorld (mkStorage kAdmin kPhaseNone (Some (mkService false)) None None None
             None None None None None None None (Some object)) false.

(** After [SetStorageMode(kUnInitialized)] from there: the WAL manager is
    gone and the mode is still admin. *)
Definition admin_world_without_wal : World :=
  mkWorld (mkStorage kAdmin kPhaseNone None None None None
             None None None None None None None (Some object)) false.

(** After [SetStorageMode(kReadable)] from there. *)
Definition reader_world_without_wal : World :=
  mkWorld (mkStorage kReadable kPhase1 None None None (Some (mkService true))
             None None None None None None (Some (mkResultCache 100)) (Some object))
          false.

(** The world a reader is in after its bring-up stopped at the first
    phase, and the world after its tear-down. *)
Definition reader_phase1_world : World :=
  mkWorld (mkStorage kReadable kPhase1 (Some (mkService false)) None None
             (Some (mkService true)) None None None None None None
             (Some (mkResultCache 100)) (Some object)) false.

Definition torn_down_reader_world : World :=
  mkWorld (mkStorage kUnInitialized kPhase1 None None None None None None None
             None None None (Some (mkResultCache 100)) (Some object)) false.

(** The writable world of a first start with local storage, and the trace
    of the bring-up that leads to it from [admin_world]. *)
Definition writable_world : World :=
  mkWorld (mkStorage kWritable kPhaseNone (Some (mkService true))
             (Some (mkCatalog false 0 (Some 0) true)) (Some (mkService true))
             (Some (mkService true)) None None (Some (mkBG true (Some 10)))
             (Some (mkService true)) (Some object)
             (Some (mkPeriodic (Some 30) (Some 5) (Some 10) (Some 10) (Some 10) true))
             (Some (mkResultCache 100)) (Some object)) false.

Definition first_start_trace : list Event :=
  [EvConstruct CleanupTracer; EvDrop CleanupTracer;
   EvConstruct ResultCacheC; EvConstruct BufferMgr; EvStart BufferMgr;
   EvReplayWalFile kWritable 0; EvConstruct CatalogC; EvInitCompactionAlg 0;
   EvBuiltinFunctionsInit; EvConstruct BgProcessor; EvConstruct TxnMgr;
   EvStart TxnMgr; EvStart Wal;
   EvBeginTxn "create db1"; EvSetReaderAllowed true;
   EvCreateDatabase "default_db" kError "Initial startup created" OK; EvCommitTxn;
   EvConstruct MemIndexTracer; EvStart BgProcessor;
   EvConstruct Compactor; EvStart Compactor;
   EvStartMemoryIndexCommit; EvMemIndexRecover 0;
   EvConstruct PeriodicThread; EvSetCleanupTrigger 10;
   EvBeginTxn "ForceCheckpointTask"; EvSubmitForceCheckpoint 0; EvWaitTask;
   EvSetReaderAllowed true; EvCommitTxn; EvStart PeriodicThread].

(** The writable world of a first start with remote storage, the trace
    of its tear-down, and the world after it. *)
Definition minio_writable_world : World :=
  mkWorld (mkStorage kWritable kPhaseNone (Some (mkService true))
             (Some (mkCatalog false 0 (Some 0) true)) (Some (mkService true))
             (Some (mkService true)) (Some object) (Some (mkService true))
             (Some (mkBG true (Some 10)))
             (Some (mkService true)) (Some object)
             (Some (mkPeriodic (Some 30) (Some 5) (Some 10) (Some 10) (Some 10) true))
             (Some (mkResultCache 100)) (Some object)) true.

Definition minio_teardown_trace : list Event :=
  [EvConstruct CleanupTracer; EvDrop CleanupTracer;
   EvStop PeriodicThread; EvDrop PeriodicThread;
   EvStop Compactor; EvDrop Compactor;
   EvStop BgProcessor; EvDrop BgProcessor;
   EvDrop CatalogC; EvDrop MemIndexTracer;
   EvStop Wal; EvDrop Wal;
   EvStop ObjectStorage; EvDrop ObjectStorage; EvUnInitRemoteStore;
   EvStop TxnMgr; EvDrop TxnMgr;
   EvStop BufferMgr; EvDrop BufferMgr;
   EvDrop Persistence].

Definition torn_down_world : World :=
  mkWorld (mkStorage kUnInitialized kPhaseNone None None None None None None None
             None None None (Some (mkResultCache 100)) (Some object)) false.

(** The world after a reader was torn down to the admin mode, brought up
    as a writer and demoted: readable, the reader phase still the first;
    and the world after its promotion. *)
Definition demoted_phase1_world : World :=
  mkWorld (mkStorage kReadable kPhase1 (Some (mkService true))
             (Some (mkCatalog false 0 (Some 0) true)) (Some (mkService true))
             (Some (mkService true)) None None (Some (mkBG true (Some 10)))
             None (Some object)
             (Some (mkPeriodic None None None None (Some 10) true))
             (Some (mkResultCache 100)) (Some object)) false.

Definition promoted_world : World :=
  mkWorld (mkStorage kWritable kPhase1 (Some (mkService true))
             (Some (mkCatalog false 0 (Some 0) true)) (Some (mkService true))
             (Some (mkService true)) None None (Some (mkBG true (Some 10)))
             (Some (mkService true)) (Some object)
             (Some (mkPeriodic (Some 30) (Some 5) (Some 10) (Some 10) (Some 10) true))
             (Some (mkResultCache 100)) (Some object)) false.

(* ------------------------------------------------------------------ *)
(** ** Further vocabulary: what is running and which triggers are set *)

(** The periodic thread of a reader: the cleanup trigger alone; and of a
    writer: all five.  Both run. *)
Definition cleanup_periodic (cfg : Config) : PeriodicTriggerThread :=
  mkPeriodic None None None None
    (Some (positive_or_zero (CleanupInterval cfg))) true.

Definition writable_periodic (cfg : Config) : PeriodicTriggerThread :=
  mkPeriodic (Some (positive_or_zero (FullCheckpointInterval cfg)))
    (Some (positive_or_zero (DeltaCheckpointInterval cfg)))
    (Some (positive_or_zero (CompactInterval cfg)))
    (Some (positive_or_zero (OptimizeIndexInterval cfg)))
    (Some (positive_or_zero (CleanupInterval cfg))) true.

Definition started (o : option Service) : Prop :=
  match o with Some x => running x = true | None => True end.

(** What holds of the objects behind the members in every reachable
    world: the services that are there run, the WAL manager runs exactly
    when there is a transaction manager, the background processor runs
    with the cleanup trigger registered, the periodic thread is the one of
    the mode, the result cache has the configured capacity as a [SizeT],
    and in the readable and writable modes the storage type is a supported
    one. *)
Definition settled (cfg : Config) (w : World) : Prop :=
  let s := storage w in
  started (buffer_mgr_ s) /\ started (txn_mgr_ s)
  /\ started (compact_processor_ s) /\ started (object_storage_processor_ s)
  /\ match wal_mgr_ s with
     | Some x => running x = is_some (txn_mgr_ s)
     | None => True
     end
  /\ match bg_processor_ s with
     | Some b => b = mkBG true (Some (positive_or_zero (CleanupInterval cfg)))
     | None => True
     end
  /\ match periodic_trigger_thread_ s with
     | Some p =>
         p = if StorageMode_eqb (current_storage_mode_ s) kWritable
             then writable_periodic cfg else cleanup_periodic cfg
     | None => True
     end
  /\ match result_cache_manager_ s with
     | Some r => r = mkResultCache (to_SizeT (CacheResultNum cfg))
     | None => True
     end
  /\ match current_storage_mode_ s with
     | kReadable | kWritable => unsupported cfg = false
     | _ => True
     end.

(** *** The worlds that the transitions lead to *)

(** After a tear-down to [target]: every member null but the result cache
    and the cleanup tracer, and, in the admin mode, a new WAL manager that
    has not been started. *)
Definition torn_down (target : StorageMode) (s : Storage) : Storage :=
  mkStorage target (reader_init_phase_ s)
    (if StorageMode_eqb target kAdmin then Some (mkService false) else None)
    None None None None None None None None None
    (result_cache_manager_ s) (Some object).

(** The result cache after a bring-up: the one there was, or a new one of
    the configured capacity, stored in a [SizeT]. *)
Definition cache_after_bring_up (cfg : Config) (s : Storage)
    : option ResultCacheManager :=
  Some (match result_cache_manager_ s with
        | Some r => r
        | None => mkResultCache (to_SizeT (CacheResultNum cfg))
        end).

(** After the bring-up of a reader, which stops at the first phase. *)
Definition brought_up_reader (cfg : Config) (s : Storage) : Storage :=
  mkStorage kReadable kPhase1 (wal_mgr_ s) None None (Some (mkService true))
    (if persistent cfg then Some object else None)
    (if remote cfg then Some (mkService true) else None)
    None None None None (cache_after_bring_up cfg s) (Some object).

(** The catalog after the replay returned [ts]: a new one for 0, else the
    one the replay attached; with the compaction algorithm initialised
    when the compact interval is positive, and the memory index commit
    started. *)
Definition catalog_after_bring_up (cfg : Config) (ts : Z) : Catalog :=
  let c := if ts =? 0 then NewCatalog else LoadFromFiles 0 in
  StartMemoryIndexCommit
    (if 0 <? positive_or_zero (CompactInterval cfg)
     then InitCompactionAlg ts c else c).

(** After the bring-up of a writer. *)
Definition brought_up_writer (cfg : Config) (ts : Z) (s : Storage) : Storage :=
  mkStorage kWritable (reader_init_phase_ s) (Some (mkService true))
    (Some (catalog_after_bring_up cfg ts)) (Some (mkService true))
    (Some (mkService true))
    (if persistent cfg then Some object else None)
    (if remote cfg then Some (mkService true) else None)
    (Some (mkBG true (Some (positive_or_zero (CleanupInterval cfg)))))
    (Some (mkService true)) (Some object) (Some (writable_periodic cfg))
    (cache_after_bring_up cfg s) (Some object).

(** After [SetReaderStorageContinue] on a reader whose catalog is [c]. *)
Definition continued_reader (cfg : Config) (c : Catalog) (s : Storage) : Storage :=
  mkStorage kReadable kPhase2 (Some (mkService true))
    (Some (StartMemoryIndexCommit c)) (Some (mkService true)) (buffer_mgr_ s)
    (persistence_manager_ s) (object_storage_processor_ s)
    (Some (mkBG true (Some (positive_or_zero (CleanupInterval cfg)))))
    (compact_processor_ s) (Some object) (Some (cleanup_periodic cfg))
    (result_cache_manager_ s) (cleanup_info_tracer_ s).

(** After the promotion of a reader. *)
Definition promoted (cfg : Config) (s : Storage) : Storage :=
  set_current_storage_mode_ kWritable
    (set_periodic_trigger_thread_ (Some (writable_periodic cfg))
       (set_compact_processor_ (Some (mkService true))
          (set_cleanup_info_tracer_ (Some object) s))).

Definition is_wal_event (e : Event) : bool :=
  match e with
  | EvReplayWalFile _ _ | EvStart Wal | EvStop Wal | EvConstruct Wal | EvDrop Wal => true
  | _ => false
  end.

(** *** The row capacity of a segment *)

Record SegmentEntry : Set := mkSegmentEntry {
  row_capacity_ : Z;
  current_row_ : Z
}.

(** [row_capacity_ - current_row_], in [SizeT]. *)
Definition AvailableCapacity (e : SegmentEntry) : Z :=
  (row_capacity_ e - current_row_ e) mod SizeT_modulus.

(** How a call ended, for the statements that list every outcome. *)
Inductive Ending : Set := Returned | Aborted | CalledThroughNull.

Definition ending {A} (o : Outcome A) : Ending :=
  match o with
  | Done _ _ _ => Returned
  | Fatal _ _ => Aborted
  | NullDeref _ => CalledThroughNull
  end.


(** What the bring-up of a writer comes to; [o] is the outcome of the
    call. *)
Definition writer_bring_up_outcome (cfg : Config) (env : Env) (w : World)
    (o : Outcome Status) : Prop :=
  match o with
  | Done st w' _ =>
      st = OK
      /\ w' = mkWorld (brought_up_writer cfg (replay_ts env) (storage w)) (remote cfg)
      /\ (replay_ts env = 0 \/ replay_attaches_catalog env = true)
      /\ (replay_ts env = 0 -> create_db_status env = OK)
  | Fatal msg _ =>
      msg = "Can't initial 'default_db'"
      /\ replay_ts env = 0 /\ ok (create_db_status env) = false
  | NullDeref _ =>
      replay_ts env <> 0 /\ replay_attaches_catalog env = false
  end.

(** What [SetReaderStorageContinue] comes to in the readable mode. *)
Definition continue_outcome (cfg : Config) (w : World) (o : Outcome Status) : Prop :=
  let s := storage w in
  match o with
  | Done st w' _ =>
      st = OK
      /\ periodic_trigger_thread_ s = None
      /\ is_some (wal_mgr_ s) = true
      /\ exists c, new_catalog_ s = Some c
                   /\ w' = mkWorld (continued_reader cfg c s) (remote_store_init w)
  | Fatal msg _ =>
      msg = "Background processor was initialized before."
      /\ is_some (periodic_trigger_thread_ s) = true
  | NullDeref _ =>
      periodic_trigger_thread_ s = None
      /\ (wal_mgr_ s = None \/ new_catalog_ s = None)
  end.

(** The reader of the sample after [AttachCatalog] with two deltas. *)
Definition reader_with_catalog_world : World :=
  mkWorld (mkStorage kReadable kPhase1 (Some (mkService false))
             (Some (LoadFromFiles 2)) None
             (Some (mkService true)) None None None None None None
             (Some (mkResultCache 100)) (Some object)) false.


(** [AttachDeltaCheckpoint] called [n] times in a row. *)
Fixpoint attach_deltas (n : nat) : M unit :=
  match n with
  | O => ret tt
  | S k => AttachDeltaCheckpoint ;; attach_deltas k
  end.

(** The catalog [c] with [n] more delta checkpoints. *)
Definition with_deltas (n : nat) (c : Catalog) : Catalog :=
  mkCatalog (from_checkpoint c) (n + delta_checkpoints c) (compaction_alg_ts c)
    (memory_index_commit c).

Definition with_catalog (c : option Catalog) (w : World) : World :=
  mkWorld (set_new_catalog_ c (storage w)) (remote_store_init w).

(** The mode and the reader phase [SetStorageMode] leaves when it returns
    OK: the target, but for the step from the admin mode to the
    uninitialised one; the phase is written by the bring-up of a reader
    only. *)
Definition mode_after (current target : StorageMode) : StorageMode :=
  match current, target with
  | kAdmin, kUnInitialized => kAdmin
  | _, _ => target
  end.

Definition phase_after (current target : StorageMode) (phase : ReaderInitPhase)
    : ReaderInitPhase :=
  match current, target with
  | kAdmin, kReadable => kPhase1
  | _, _ => phase
  end.

(* ------------------------------------------------------------------ *)
(** ** The sample worlds are reached *)

Example admin_world_reached :
  run cfg_local [set_mode_ok kAdmin] (new_World kPhaseNone) = Some admin_world.
Proof. vm_compute; reflexivity. Qed.

Example reader_phase1_world_reached :
  run cfg_local [set_mode_ok kAdmin; set_mode_ok kReadable] (new_World kPhaseNone)
  = Some reader_phase1_world.
Proof. vm_compute; reflexivity. Qed.

Example writable_world_reached :
  run cfg_local [set_mode_ok kAdmin; set_mode_ok kWritable] (new_World kPhaseNone)
  = Some writable_world.
Proof. vm_compute; reflexivity. Qed.

(* ------------------------------------------------------------------ *)
(** ** Order of events: the computed check is sound *)

Section Ordered.

Context {A : Type} (p q : A -> bool).

Lemma existsb_nth_error (l : list A) i a :
  nth_error l i = Some a -> p a = true -> existsb p l = true.
Proof.
  intros Hn Hp. apply existsb_exists. exists a. split; [|assumption].
  eapply nth_error_In; eassumption.
Qed.

Lemma ordered_precedes (l : list A) : ordered p q l = true -> precedes p q l.
Proof.
  induction l as [|x r IH]; intros Ho i j a b Hi Hj Hp Hq.
  - destruct i; discriminate Hi.
  - cbn [ordered] in Ho. apply andb_true_iff in Ho as [Hx Hr].
    destruct j as [|j].
    + injection Hj as ->. rewrite Hq in Hx. cbn in Hx.
      apply andb_true_iff in Hx as [Hpx Hex].
      destruct i as [|i].
      * injection Hi as ->. rewrite Hp in Hpx. discriminate.
      * cbn in Hi. rewrite (existsb_nth_error r i a Hi Hp) in Hex. discriminate.
    + destruct i as [|i]; [lia|].
      cbn in Hi, Hj. specialize (IH Hr i j a b Hi Hj Hp Hq). lia.
Qed.

End Ordered.

Lemma reads_stop c : stop_matters c = true -> reads (is_stop c) (k_stop c).
Proof.
  intros Hc e. destruct e; try reflexivity; cbn.
  - destruct (drop_matters c0); reflexivity.
  - destruct (stop_matters c0) eqn:E; cbn; [rewrite orb_false_r; reflexivity|].
    destruct c, c0; try reflexivity; discriminate.
Qed.

Lemma reads_drop c : drop_matters c = true -> reads (is_drop c) (k_drop c).
Proof.
  intros Hc e. destruct e; try reflexivity; cbn.
  - destruct (drop_matters c0) eqn:E; cbn; [rewrite orb_false_r; reflexivity|].
    destruct c, c0; try reflexivity; discriminate.
  - destruct (stop_matters c0); reflexivity.
Qed.

Lemma kind_short e : kind e = [] \/ exists k, kind e = [k].
Proof.
  destruct e; cbn; auto.
  - destruct (drop_matters c); eauto.
  - destruct (stop_matters c); eauto.
Qed.

Lemma existsb_kinds P p tr :
  reads P p -> existsb p (kinds tr) = existsb P tr.
Proof.
  intros HP. induction tr as [|e r IH]; [reflexivity|].
  unfold kinds in *. cbn. rewrite existsb_app, IH, HP. reflexivity.
Qed.

Lemma ordered_kinds P Q p q tr :
  reads P p -> reads Q q ->
  ordered p q (kinds tr) = ordered P Q tr.
Proof.
  intros HP HQ. induction tr as [|e r IH]; [reflexivity|].
  cbn [ordered]. rewrite <- IH, HP, HQ, <- (existsb_kinds P p r HP).
  unfold kinds. cbn [flat_map].
  destruct (kind_short e) as [-> | [k ->]]; cbn; [reflexivity|].
  rewrite !orb_false_r. reflexivity.
Qed.

Lemma stops_before_drops_sound tr :
  stops_before_drops_k (kinds tr) = true -> stops_before_drops tr.
Proof.
  unfold stops_before_drops_k, stops_before_drops. intros H.
  apply andb_true_iff in H as [H H4].
  apply andb_true_iff in H as [H H3]. apply andb_true_iff in H as [H1 H2].
  rewrite forallb_forall in H1, H2, H3, H4.
  repeat split.
  - intros c Hc. apply ordered_precedes. specialize (H1 c Hc).
    rewrite <- (ordered_kinds _ _ (k_stop PeriodicThread) (k_stop c)); [exact H1| |].
    + apply reads_stop; reflexivity.
    + apply reads_stop. cbn in Hc. intuition (subst; reflexivity).
  - intros c d Hc Hd. apply ordered_precedes. specialize (H2 c Hc).
    rewrite forallb_forall in H2. specialize (H2 d Hd).
    rewrite <- (ordered_kinds _ _ (k_stop c) (k_drop d)); [exact H2| |].
    + apply reads_stop. cbn in Hc. intuition (subst; reflexivity).
    + apply reads_drop. cbn in Hd. intuition (subst; reflexivity).
  - intros d Hd. apply ordered_precedes. specialize (H3 d Hd).
    rewrite <- (ordered_kinds _ _ (k_stop ObjectStorage) (k_drop d)); [exact H3| |].
    + apply reads_stop; reflexivity.
    + apply reads_drop. cbn in Hd. intuition (subst; reflexivity).
  - intros d Hd. apply ordered_precedes. specialize (H4 d Hd).
    rewrite <- (ordered_kinds _ _ (k_drop d) (k_stop ObjectStorage)); [exact H4| |].
    + apply reads_drop. cbn in Hd. intuition (subst; reflexivity).
    + apply reads_stop; reflexivity.
Qed.

(* ------------------------------------------------------------------ *)
(** ** Rules of [may] *)

Lemma kinds_app t1 t2 : kinds (t1 ++ t2) = kinds t1 ++ kinds t2.
Proof. unfold kinds. apply flat_map_app. Qed.

Lemma in_seq_sets a b S1 S2 : In a S1 -> In b S2 -> In (a ++ b) (seq_sets S1 S2).
Proof.
  intros Ha Hb. unfold seq_sets. apply nodup_In. apply in_flat_map.
  exists a. split; [assumption|]. apply in_map. assumption.
Qed.

Lemma may_bind {A B} (m : M A) (f : A -> M B) S1 S2 :
  may m S1 -> (forall a, may (f a) S2) -> may (bind m f) (seq_sets S1 S2).
Proof.
  intros Hm Hf w b w' tr. unfold bind.
  destruct (m w) as [a w1 t1| |] eqn:E1; try discriminate.
  destruct (f a w1) as [b' w2 t2| |] eqn:E2; try discriminate.
  intros [= <- <- <-]. rewrite kinds_app.
  apply in_seq_sets; [eapply Hm | eapply Hf]; eassumption.
Qed.

Lemma may_weaken {A} (m : M A) S S' : may m S -> incl S S' -> may m S'.
Proof. intros H Hi w a w' tr E. apply Hi. eapply H; eassumption. Qed.

Lemma may_silent {A} (m : M A) :
  (forall w a w' tr, m w = Done a w' tr -> kinds tr = []) -> may m [[]].
Proof. intros H w a w' tr E. rewrite (H _ _ _ _ E). left; reflexivity. Qed.

Lemma may_ret {A} (a : A) : may (ret a) [[]].
Proof. apply may_silent. intros w b w' tr [= <- <- <-]. reflexivity. Qed.

Lemma may_emit e : may (emit e) [kinds [e]].
Proof. intros w b w' tr [= <- <- <-]. left; reflexivity. Qed.

Lemma may_emit_quiet e : kind e = [] -> may (emit e) [[]].
Proof.
  intros He. apply may_silent. intros w b w' tr [= <- <- <-].
  unfold kinds; cbn. rewrite He. reflexivity.
Qed.

Lemma may_fatal {A} msg : may (@UnrecoverableError A msg) [].
Proof. intros w b w' tr; discriminate. Qed.

Lemma may_null_deref {A} : may (@null_deref A) [].
Proof. intros w b w' tr; discriminate. Qed.

Lemma may_if {A} (b : bool) (m1 m2 : M A) S1 S2 :
  may m1 S1 -> may m2 S2 -> may (if b then m1 else m2) (S1 ++ S2).
Proof.
  intros H1 H2 w a w' tr E. apply in_or_app.
  destruct b; [left; eapply H1 | right; eapply H2]; eassumption.
Qed.

Lemma may_when b m S : may m S -> may (when b m) (S ++ [[]]).
Proof. intros H. unfold when. apply may_if; [assumption|apply may_ret]. Qed.

Lemma may_option {A} {T} (o : option T) (f : T -> M A) (g : M A) S1 S2 :
  (forall x, may (f x) S1) -> may g S2 ->
  may (match o with Some x => f x | None => g end) (S1 ++ S2).
Proof.
  intros H1 H2 w a w' tr E. apply in_or_app.
  destruct o; [left; eapply H1 | right; eapply H2]; eassumption.
Qed.

Lemma may_StorageMode {A} (x : StorageMode) (m1 m2 m3 m4 : M A) S1 S2 S3 S4 :
  may m1 S1 -> may m2 S2 -> may m3 S3 -> may m4 S4 ->
  may (match x with
       | kUnInitialized => m1 | kAdmin => m2 | kReadable => m3 | kWritable => m4
       end) (S1 ++ S2 ++ S3 ++ S4).
Proof.
  intros H1 H2 H3 H4 w a w' tr E.
  destruct x; [apply H1 in E | apply H2 in E | apply H3 in E | apply H4 in E];
    repeat (rewrite in_app_iff); tauto.
Qed.

Lemma may_StorageType {A} (x : StorageType) (m1 m2 m3 : M A) S1 S2 S3 :
  may m1 S1 -> may m2 S2 -> may m3 S3 ->
  may (match x with kLocal => m1 | kMinio => m2 | kUnsupported => m3 end)
      (S1 ++ S2 ++ S3).
Proof.
  intros H1 H2 H3 w a w' tr E.
  destruct x; [apply H1 in E | apply H2 in E | apply H3 in E];
    repeat (rewrite in_app_iff); tauto.
Qed.

Lemma may_get_storage : may get_storage [[]].
Proof. apply may_silent. intros w a w' tr [= <- <- <-]. reflexivity. Qed.

Lemma may_modify_storage f : may (modify_storage f) [[]].
Proof. apply may_silent. intros w a w' tr [= <- <- <-]. reflexivity. Qed.

Lemma may_IsInit : may IsInit [[]].
Proof. apply may_silent. intros w a w' tr [= <- <- <-]. reflexivity. Qed.

Lemma may_InitRemoteStore st : may (InitRemoteStore st) [[]].
Proof. apply may_silent. intros w a w' tr [= <- <- <-]. reflexivity. Qed.

Lemma may_UnInitRemoteStore : may UnInitRemoteStore [[]].
Proof. apply may_silent. intros w a w' tr [= <- <- <-]. reflexivity. Qed.

Lemma may_not_null {T : Set} (p : Member T) : may (not_null p) [[]].
Proof. apply may_silent. intros w a w' tr [= <- <- <-]. reflexivity. Qed.

(** The four operations on a member: the member is there or it is not. *)
Ltac member_cases :=
  intros w a w' tr;
  cbv [reset make_unique call assign_through when bind ret emit
       get_storage modify_storage null_deref];
  match goal with |- context [m_get ?p ?s] => destruct (m_get p s) end;
  intros [= <- <- <-]; cbn; rewrite ?app_nil_r; auto.

Lemma may_reset {T : Set} (p : Member T) :
  may (reset p) [[]; kinds [EvDrop (m_component p)]].
Proof. member_cases. Qed.

Lemma may_make_unique {T : Set} (p : Member T) v :
  may (make_unique p v) [[]; kinds [EvDrop (m_component p)]].
Proof. member_cases. Qed.

Lemma may_call {T : Set} (p : Member T) f e : may (call p f e) [kinds [e]].
Proof. member_cases. Qed.

Lemma may_call_quiet {T : Set} (p : Member T) f e :
  kind e = [] -> may (call p f e) [[]].
Proof.
  intros He. eapply may_weaken; [apply may_call|].
  unfold kinds; cbn. rewrite He. apply incl_refl.
Qed.

Lemma may_assign_through {T : Set} (p : Member T) f : may (assign_through p f) [[]].
Proof. member_cases. Qed.

Ltac head_of m :=
  lazymatch m with
  | ?f _ => head_of f
  | _ => m
  end.

(** *** Behind the drop of the WAL manager

    The tear-down ends, for the admin mode, by constructing a WAL manager
    anew.  This drops none: the old one was dropped before, and no step in
    between constructs one. *)

Lemma may_from_bind {A B} P (m : M A) (f : A -> M B) S1 S2 :
  may m S1 -> keeps P m -> (forall a, may_from P (f a) S2) ->
  may_from P (bind m f) (seq_sets S1 S2).
Proof.
  intros Hm Hk Hf w b w' tr HP. unfold bind.
  destruct (m w) as [a w1 t1| |] eqn:E1; try discriminate.
  destruct (f a w1) as [b' w2 t2| |] eqn:E2; try discriminate.
  intros [= <- <- <-]. rewrite kinds_app.
  apply in_seq_sets; [eapply Hm | eapply Hf; [eapply Hk|]]; eassumption.
Qed.

Lemma may_bind_then {A B} P (m : M A) (f : A -> M B) S1 S2 :
  may m S1 -> hoare (fun _ => True) m (fun _ => P) ->
  (forall a, may_from P (f a) S2) ->
  may (bind m f) (seq_sets S1 S2).
Proof.
  intros Hm Hh Hf w b w' tr. unfold bind.
  destruct (m w) as [a w1 t1| |] eqn:E1; try discriminate.
  destruct (f a w1) as [b' w2 t2| |] eqn:E2; try discriminate.
  intros [= <- <- <-]. rewrite kinds_app.
  apply in_seq_sets; [eapply Hm | eapply Hf; [eapply (Hh w); [exact I|]|]];
    eassumption.
Qed.

(** A step on another member keeps the WAL manager null. *)
Ltac wal_frame :=
  let w := fresh "w" in
  let HP := fresh "HP" in
  let E := fresh "E" in
  intros w ? ? ? HP E;
  destruct w as [[? ? wal ? ? ? ? ? ? ? ? ? ? ?] ?];
  unfold wal_is_null in *; cbn [storage wal_mgr_] in HP; subst wal;
  cbv [stop_and_reset stop_and_reset_phase2 stop reset call when bind ret emit
       not_null get_storage modify_storage null_deref UnrecoverableError is_some
       txn_m buffer_m persistence_m m_get m_set m_component
       set_txn_mgr_ set_buffer_mgr_ set_persistence_manager_
       storage remote_store_init
       current_storage_mode_ reader_init_phase_ wal_mgr_ new_catalog_ txn_mgr_
       buffer_mgr_ persistence_manager_ object_storage_processor_ bg_processor_
       compact_processor_ memory_index_tracer_ periodic_trigger_thread_
       result_cache_manager_ cleanup_info_tracer_
       ReaderInitPhase_eqb negb app] in E;
  repeat match type of E with
  | context [match ?x with _ => _ end] => is_var x; destruct x
  end;
  first [ discriminate E | injection E as <- <- <-; reflexivity ].

Lemma wal_null_uninit_remote_store cfg :
  keeps wal_is_null (uninit_remote_store cfg).
Proof.
  intros w a w' tr HP. unfold wal_is_null in *.
  destruct w as [[? ? wal ? ? ? ? osp ? ? ? ? ? ?] ?].
  cbn [storage wal_mgr_] in HP. subst wal.
  unfold uninit_remote_store. destruct (StorageType_ cfg); [| destruct osp |];
    cbv; first [ discriminate | intros [= <- <- <-]; reflexivity ].
Qed.

(** After its stop and drop the WAL manager is null. *)
Lemma wal_null_after_stop :
  hoare (fun _ => True) (stop_and_reset wal_m Stop) (fun _ => wal_is_null).
Proof.
  intros w a w' tr _. unfold wal_is_null.
  destruct w as [[? ? wal ? ? ? ? ? ? ? ? ? ? ?] ?].
  destruct wal; cbv; intros [= <- <- <-]; reflexivity.
Qed.

(** Constructed over a null pointer, nothing is dropped. *)
Lemma may_from_fresh_wal b v :
  may_from wal_is_null (when b (make_unique wal_m v)) [[]].
Proof.
  intros w a w' tr HP. unfold wal_is_null in HP.
  destruct w as [[? ? wal ? ? ? ? ? ? ? ? ? ? ?] ?].
  cbn [storage wal_mgr_] in HP. subst wal.
  destruct b; cbv [when make_unique bind ret emit get_storage modify_storage
                   is_some wal_m m_get storage wal_mgr_];
    intros [= <- <- <-]; left; reflexivity.
Qed.

(** One rule, chosen by the shape of the program; a name that is none of
    the primitives is unfolded. *)
Ltac may_step :=
  lazymatch goal with
  | |- may_from _ (bind _ _) _ => eapply may_from_bind; [ | | intros ? ]
  | |- may_from _ (when _ (make_unique wal_m _)) _ => apply may_from_fresh_wal
  | |- keeps wal_is_null (uninit_remote_store _) => apply wal_null_uninit_remote_store
  | |- keeps wal_is_null _ => wal_frame
  | |- may (bind (stop_and_reset wal_m Stop) _) _ =>
      eapply may_bind_then; [ | apply wal_null_after_stop | intros ? ]
  | |- may (bind _ _) _ => eapply may_bind; [ | intros ? ]
  | |- may (ret _) _ => apply may_ret
  | |- may (emit _) _ => first [apply may_emit_quiet; reflexivity | apply may_emit]
  | |- may (UnrecoverableError _) _ => apply may_fatal
  | |- may null_deref _ => apply may_null_deref
  | |- may get_storage _ => apply may_get_storage
  | |- may (modify_storage _) _ => apply may_modify_storage
  | |- may IsInit _ => apply may_IsInit
  | |- may (InitRemoteStore _) _ => apply may_InitRemoteStore
  | |- may UnInitRemoteStore _ => apply may_UnInitRemoteStore
  | |- may (not_null _) _ => apply may_not_null
  | |- may (reset _) _ => apply may_reset
  | |- may (make_unique _ _) _ => apply may_make_unique
  | |- may (call _ _ _) _ => first [apply may_call_quiet; reflexivity | apply may_call]
  | |- may (assign_through _ _) _ => apply may_assign_through
  | |- may (when true ?m) _ => change (when true m) with m
  | |- may (when false ?m) _ => change (when false m) with (ret tt)
  | |- may (if true then ?m else _) _ => change (may m)
  | |- may (if false then _ else ?m) _ => change (may m)
  | |- may (when _ _) _ => eapply may_when
  | |- may (if _ then _ else _) _ => eapply may_if
  | |- may (match ?o with Some x => @?f x | None => ?g end) _ =>
      eapply (may_option o f g); [intros ?|]
  | |- may (match ?x with
            | kUnInitialized => _ | kAdmin => _ | kReadable => _ | kWritable => _
            end) _ => eapply may_StorageMode
  | |- may (match ?x with kLocal => _ | kMinio => _ | kUnsupported => _ end) _ =>
      eapply may_StorageType
  | |- may ?m _ =>
      let h := head_of m in unfold h; cbn [StorageMode_eqb orb negb]
  end.

(** The stops and drops of a call of [SetStorageMode] that returns keep
    the order of the tear-down, whatever the world it started in. *)
Lemma SetStorageMode_kinds cfg env target w st w' tr :
  SetStorageMode cfg env target w = Done st w' tr ->
  stops_before_drops_k (kinds tr) = true.
Proof.
  revert w st w' tr.
  assert (H : exists S, may (SetStorageMode cfg env target) S
                        /\ forallb stops_before_drops_k S = true).
  { destruct target; eexists; (split; [ repeat may_step | ]).
    all: cbv [m_component cleanup_m wal_m catalog_m txn_m buffer_m persistence_m
              object_storage_m bg_m compact_m memidx_m periodic_m result_cache_m].
    all: vm_compute; reflexivity. }
  destruct H as (S & HS & Hall). intros w st w' tr E.
  rewrite forallb_forall in Hall. apply Hall. eapply HS. eassumption.
Qed.

(** C2, as amended: in every transition that [SetStorageMode] carries out,
    the periodic thread is stopped before the background, compaction and
    object storage processors are; the background and compaction processors
    are stopped before the catalog, the transaction manager, the WAL manager
    and the buffer manager are dropped; and the object storage processor is
    stopped before the transaction manager and the buffer manager are
    dropped, and after every drop of the catalog and of the WAL manager. *)
Theorem C2_teardown_order cfg env target w st w' tr :
  SetStorageMode cfg env target w = Done st w' tr ->
  stops_before_drops tr.
Proof.
  intros E. apply stops_before_drops_sound. eapply SetStorageMode_kinds. eassumption.
Qed.

Example minio_writable_world_reached :
  run cfg_minio [set_mode_ok kAdmin; set_mode_ok kWritable] (new_World kPhaseNone)
  = Some minio_writable_world.
Proof. vm_compute; reflexivity. Qed.

Lemma C2_teardown_order_witness :
  trace_of (SetStorageMode cfg_minio env_fresh kUnInitialized minio_writable_world)
  = minio_teardown_trace
  /\ stops_before_drops minio_teardown_trace.
Proof.
  split; [vm_compute; reflexivity|].
  apply (C2_teardown_order cfg_minio env_fresh kUnInitialized minio_writable_world
           OK torn_down_world minio_teardown_trace).
  vm_compute; reflexivity.
Defined.

(** C2 as stated fails: with remote storage, the tear-down from writable
    stops the object storage processor (event 12) after it has dropped the
    catalog (event 8) and the WAL manager (event 11). *)
Lemma C2_counterexample :
  run cfg_minio [set_mode_ok kAdmin; set_mode_ok kWritable] (new_World kPhaseNone)
  = Some minio_writable_world
  /\ (exists w', SetStorageMode cfg_minio env_fresh kUnInitialized minio_writable_world
                 = Done OK w' minio_teardown_trace)
  /\ nth_error minio_teardown_trace 8 = Some (EvDrop CatalogC)
  /\ nth_error minio_teardown_trace 12 = Some (EvStop ObjectStorage)
  /\ ~ stops_before_drops_as_stated minio_teardown_trace.
Proof.
  split; [vm_compute; reflexivity|].
  split; [exists torn_down_world; vm_compute; reflexivity|].
  split; [reflexivity|]. split; [reflexivity|].
  intros [_ H].
  assert (Hlt : (12 < 8)%nat).
  { apply (H ObjectStorage CatalogC) with (a := EvStop ObjectStorage) (b := EvDrop CatalogC).
    - right; right; left; reflexivity.
    - left; reflexivity.
    - reflexivity.
    - reflexivity.
    - reflexivity.
    - reflexivity. }
  lia.
Qed.

(* ------------------------------------------------------------------ *)
(** ** The call with the mode unchanged *)

(** C6: [SetStorageMode] with the current mode as target returns OK, leaves
    the world as it is, and does nothing but log a warning: no member is
    constructed, started, stopped or dropped. *)
Theorem C6_unchanged_mode_is_no_op cfg env w :
  SetStorageMode cfg env (mode_of w) w
  = Done OK w [EvLogWarn "Set unchanged mode"].
Proof.
  unfold SetStorageMode, GetStorageMode, bind, get_storage, ret, mode_of.
  destruct (current_storage_mode_ (storage w)); reflexivity.
Qed.

(* ------------------------------------------------------------------ *)
(** ** Rules of [hoare], and the result cache *)

Lemma hoare_bind {A B} P (m : M A) (f : A -> M B) Q R :
  hoare P m Q -> (forall a, hoare (Q a) (f a) R) -> hoare P (bind m f) R.
Proof.
  intros Hm Hf w b w' tr HP. unfold bind.
  destruct (m w) as [a w1 t1| |] eqn:E1; try discriminate.
  destruct (f a w1) as [b' w2 t2| |] eqn:E2; try discriminate.
  intros [= <- <- <-]. eapply Hf; [eapply Hm|]; eassumption.
Qed.

Lemma hoare_pure {A} (P : World -> Prop) (phi : Prop) (m : M A) Q :
  (phi -> hoare P m Q) -> hoare (fun w => P w /\ phi) m Q.
Proof. intros H w a w' tr [HP Hphi]. apply H; assumption. Qed.

Lemma keeps_ret {A} P (a : A) : keeps P (ret a).
Proof. intros w b w' tr HP [= <- <- <-]. assumption. Qed.

Lemma keeps_emit P e : keeps P (emit e).
Proof. intros w b w' tr HP [= <- <- <-]. assumption. Qed.

Lemma keeps_fatal {A} P msg : keeps P (@UnrecoverableError A msg).
Proof. intros w b w' tr HP; discriminate. Qed.

Lemma keeps_null_deref {A} P : keeps P (@null_deref A).
Proof. intros w b w' tr HP; discriminate. Qed.

Lemma keeps_get_storage P : keeps P get_storage.
Proof. intros w b w' tr HP [= <- <- <-]. assumption. Qed.

Lemma keeps_if {A} P (b : bool) (m1 m2 : M A) :
  keeps P m1 -> keeps P m2 -> keeps P (if b then m1 else m2).
Proof. destruct b; auto. Qed.

Lemma keeps_when P b m : keeps P m -> keeps P (when b m).
Proof. intros H. apply keeps_if; [assumption|apply keeps_ret]. Qed.

Lemma keeps_option {A T} P (o : option T) (f : T -> M A) (g : M A) :
  (forall x, keeps P (f x)) -> keeps P g ->
  keeps P (match o with Some x => f x | None => g end).
Proof. destruct o; auto. Qed.

Lemma keeps_StorageMode {A} P (x : StorageMode) (m1 m2 m3 m4 : M A) :
  keeps P m1 -> keeps P m2 -> keeps P m3 -> keeps P m4 ->
  keeps P (match x with
           | kUnInitialized => m1 | kAdmin => m2 | kReadable => m3 | kWritable => m4
           end).
Proof. destruct x; auto. Qed.

Lemma keeps_StorageType {A} P (x : StorageType) (m1 m2 m3 : M A) :
  keeps P m1 -> keeps P m2 -> keeps P m3 ->
  keeps P (match x with kLocal => m1 | kMinio => m2 | kUnsupported => m3 end).
Proof. destruct x; auto. Qed.

Section Cache.

Variable rc : ResultCacheManager.

Lemma cache_modify_storage f :
  (forall s, result_cache_manager_ (f s) = result_cache_manager_ s) ->
  keeps (cache_is rc) (modify_storage f).
Proof.
  intros Hf w b w' tr HP [= <- <- <-]. unfold cache_is in *. cbn.
  rewrite Hf. assumption.
Qed.

Lemma cache_world {A} (m : M A) :
  (forall w a w' tr, m w = Done a w' tr -> storage w' = storage w) ->
  keeps (cache_is rc) m.
Proof.
  intros H w a w' tr HP E. unfold cache_is in *. rewrite (H _ _ _ _ E). assumption.
Qed.

Lemma cache_IsInit : keeps (cache_is rc) IsInit.
Proof. apply cache_world. intros w a w' tr [= <- <- <-]. reflexivity. Qed.

Lemma cache_InitRemoteStore st : keeps (cache_is rc) (InitRemoteStore st).
Proof. apply cache_world. intros w a w' tr [= <- <- <-]. reflexivity. Qed.

Lemma cache_UnInitRemoteStore : keeps (cache_is rc) UnInitRemoteStore.
Proof. apply cache_world. intros w a w' tr [= <- <- <-]. reflexivity. Qed.

Lemma cache_not_null {T : Set} (p : Member T) : keeps (cache_is rc) (not_null p).
Proof. apply cache_world. intros w a w' tr [= <- <- <-]. reflexivity. Qed.

(** With the cache there, the test for it answers [true]. *)
Lemma cache_not_null_cache :
  hoare (cache_is rc) (not_null result_cache_m)
        (fun r w => cache_is rc w /\ r = true).
Proof.
  intros w a w' tr HP [= <- <- <-]. split; [assumption|].
  unfold cache_is in HP. cbn. rewrite HP. reflexivity.
Qed.

Ltac framed_member Hp :=
  intros w a w' tr HP;
  cbv [reset make_unique call assign_through when bind ret emit
       get_storage modify_storage null_deref];
  match goal with |- context [m_get ?p ?s] => destruct (m_get p s) end;
  intros [= <- <- <-]; unfold cache_is in *; cbn; rewrite ?Hp; assumption.

Lemma cache_reset {T : Set} (p : Member T) :
  frames_cache p -> keeps (cache_is rc) (reset p).
Proof. intros Hp. framed_member Hp. Qed.

Lemma cache_make_unique {T : Set} (p : Member T) v :
  frames_cache p -> keeps (cache_is rc) (make_unique p v).
Proof. intros Hp. framed_member Hp. Qed.

Lemma cache_call {T : Set} (p : Member T) f e :
  frames_cache p -> keeps (cache_is rc) (call p f e).
Proof. intros Hp. framed_member Hp. Qed.

Lemma cache_assign_through {T : Set} (p : Member T) f :
  frames_cache p -> keeps (cache_is rc) (assign_through p f).
Proof. intros Hp. framed_member Hp. Qed.

Ltac frame := intros ? ?; reflexivity.

Ltac cache_step :=
  lazymatch goal with
  | |- keeps _ _ => unfold keeps
  | |- hoare _ (bind (not_null result_cache_m) _) _ =>
      eapply hoare_bind;
      [ apply cache_not_null_cache | intros ?; apply hoare_pure; intros -> ]
  | |- hoare _ (bind _ _) _ => eapply hoare_bind; [ | intros ? ]
  | |- hoare _ (ret _) _ => apply keeps_ret
  | |- hoare _ (emit _) _ => apply keeps_emit
  | |- hoare _ (UnrecoverableError _) _ => apply keeps_fatal
  | |- hoare _ null_deref _ => apply keeps_null_deref
  | |- hoare _ get_storage _ => apply keeps_get_storage
  | |- hoare _ (modify_storage _) _ =>
      apply cache_modify_storage; intros ?; reflexivity
  | |- hoare _ IsInit _ => apply cache_IsInit
  | |- hoare _ (InitRemoteStore _) _ => apply cache_InitRemoteStore
  | |- hoare _ UnInitRemoteStore _ => apply cache_UnInitRemoteStore
  | |- hoare _ (not_null _) _ => apply cache_not_null
  | |- hoare _ (reset _) _ => apply cache_reset; frame
  | |- hoare _ (make_unique _ _) _ => apply cache_make_unique; frame
  | |- hoare _ (call _ _ _) _ => apply cache_call; frame
  | |- hoare _ (assign_through _ _) _ => apply cache_assign_through; frame
  | |- hoare _ (when (negb true) _) _ => apply keeps_ret
  | |- hoare _ (when _ _) _ => apply keeps_when
  | |- hoare _ (if _ then _ else _) _ => apply keeps_if
  | |- hoare _ (match ?o with Some x => @?f x | None => ?g end) _ =>
      apply (keeps_option _ o f g); [intros ?|]
  | |- hoare _ (match ?x with
                | kUnInitialized => _ | kAdmin => _ | kReadable => _ | kWritable => _
                end) _ => apply keeps_StorageMode
  | |- hoare _ (match ?x with kLocal => _ | kMinio => _ | kUnsupported => _ end) _ =>
      apply keeps_StorageType
  | |- hoare _ ?m _ => let h := head_of m in unfold h
  end.

(** No call of [SetStorageMode] takes the result cache away or replaces
    it: tear-down resets every member but this one, and the bring-up
    constructs it only when it is null. *)
Lemma SetStorageMode_keeps_cache cfg env target :
  keeps (cache_is rc) (SetStorageMode cfg env target).
Proof. repeat cache_step. Qed.

Lemma SetReaderStorageContinue_keeps_cache cfg ts :
  keeps (cache_is rc) (SetReaderStorageContinue cfg ts).
Proof. repeat cache_step. Qed.

Lemma AttachCatalog_keeps_cache deltas :
  keeps (cache_is rc) (AttachCatalog deltas).
Proof. repeat cache_step. Qed.

Lemma run_op_keeps_cache cfg o : keeps (cache_is rc) (run_op cfg o).
Proof.
  destruct o; unfold run_op.
  - eapply hoare_bind; [apply SetStorageMode_keeps_cache|intros ?; apply keeps_ret].
  - apply AttachCatalog_keeps_cache.
  - eapply hoare_bind; [apply SetReaderStorageContinue_keeps_cache
                       |intros ?; apply keeps_ret].
Qed.

Lemma run_keeps_cache cfg ops : forall w w',
  cache_is rc w -> run cfg ops w = Some w' -> cache_is rc w'.
Proof.
  induction ops as [|o rest IH]; intros w w' HP Hrun; cbn in Hrun.
  - injection Hrun as <-. assumption.
  - destruct (permitted o w); [|discriminate].
    destruct (run_op cfg o w) as [a w1 t1| |] eqn:E; try discriminate.
    eapply IH; [|eassumption]. eapply run_op_keeps_cache; eassumption.
Qed.

End Cache.

(** C10: once the result cache is constructed, it is the same object after
    every later call of [SetStorageMode], a tear-down to the uninitialised
    or the admin mode included, and after any sequence of calls. *)
Theorem C10_result_cache_never_dropped cfg rc w :
  result_cache_manager_ (storage w) = Some rc ->
  (forall env target st w' tr,
      SetStorageMode cfg env target w = Done st w' tr ->
      result_cache_manager_ (storage w') = Some rc)
  /\ (forall ops w',
      run cfg ops w = Some w' ->
      result_cache_manager_ (storage w') = Some rc).
Proof.
  intros Hrc. split.
  - intros env target st w' tr E.
    exact (SetStorageMode_keeps_cache rc cfg env target w st w' tr Hrc E).
  - intros ops w' E. exact (run_keeps_cache rc cfg ops w w' Hrc E).
Qed.

Lemma C10_result_cache_never_dropped_witness :
  result_cache_manager_ (storage reader_phase1_world) = Some (mkResultCache 100)
  /\ result_cache_manager_ (storage torn_down_world) = Some (mkResultCache 100).
Proof.
  split; [reflexivity|].
  refine (proj1 (C10_result_cache_never_dropped cfg_minio (mkResultCache 100)
                   minio_writable_world eq_refl)
                env_fresh kUnInitialized OK torn_down_world minio_teardown_trace _).
  vm_compute; reflexivity.
Defined.

(* ------------------------------------------------------------------ *)
(** ** What holds in every reachable world *)

Ltac break_world w :=
  destruct w as [[mode ph wal cat txn buf pm osp bg cp mi pt rc ct] vs].

(** Turn the presence facts of the context into [Some] and [None]. *)
Ltac some_none :=
  repeat match goal with
  | H : is_some ?x = true |- _ => is_var x; destruct x; [clear H | discriminate H]
  | H : is_some ?x = false |- _ => is_var x; destruct x; [discriminate H | clear H]
  | H : true = is_some ?x |- _ => symmetry in H
  | H : false = is_some ?x |- _ => symmetry in H
  | H : _ /\ _ |- _ => destruct H
  end.

(** Run the model in [H] as far as constructors allow. *)
Ltac unfold_model H :=
  cbv [run_op SetStorageMode SetReaderStorageContinue AttachCatalog
       from_UnInitialized from_Admin from_Readable from_Writable bring_up_catalog
       init_remote_store uninit_remote_store promote_to_writable demote_to_readable
       stop_and_reset stop_and_reset_phase2 expect_null ReplayWalFile CreateDefaultDB
       GetStorageMode set_mode set_phase make_unique reset call start stop
       assign_through not_null when bind ret emit UnrecoverableError null_deref
       get_storage modify_storage IsInit InitRemoteStore UnInitRemoteStore
       wal_m catalog_m txn_m buffer_m persistence_m object_storage_m bg_m compact_m
       memidx_m periodic_m result_cache_m cleanup_m m_get m_set m_component
       set_current_storage_mode_ set_reader_init_phase_ set_wal_mgr_ set_new_catalog_
       set_txn_mgr_ set_buffer_mgr_ set_persistence_manager_
       set_object_storage_processor_ set_bg_processor_ set_compact_processor_
       set_memory_index_tracer_ set_periodic_trigger_thread_
       set_result_cache_manager_ set_cleanup_info_tracer_
       storage remote_store_init
       current_storage_mode_ reader_init_phase_ wal_mgr_ new_catalog_ txn_mgr_
       buffer_mgr_ persistence_manager_ object_storage_processor_ bg_processor_
       compact_processor_ memory_index_tracer_ periodic_trigger_thread_
       result_cache_manager_ cleanup_info_tracer_
       StorageType_ PersistenceDir init_remote_status replay_ts
       replay_attaches_catalog create_db_status
       is_some ok StorageMode_eqb ReaderInitPhase_eqb negb andb orb app] in H.

(** Split on the innermost test that the model is stuck on. *)
Ltac split_stuck H :=
  match type of H with
  | context [match ?x with _ => _ end] =>
      lazymatch x with
      | context [match _ with _ => _ end] => fail
      | _ => destruct x eqn:?
      end
  end.

Ltac run_model H :=
  unfold_model H;
  repeat (split_stuck H; try discriminate H; cbv beta iota in H);
  try discriminate H.

Ltac use_tests :=
  repeat match goal with
  | H : ?t = _ |- context [?t] => rewrite H
  end.

Ltac finish_consistent :=
  cbn in *; some_none; cbn in *; use_tests; cbn;
  repeat split; try reflexivity; try congruence; try discriminate; try tauto.

Lemma consistent_new cfg phase : consistent cfg (new_World phase).
Proof. cbn. repeat split. Qed.

Lemma from_UnInitialized_consistent cfg env target w st w' tr :
  consistent cfg w -> mode_of w = kUnInitialized ->
  SetStorageMode cfg env target w = Done st w' tr ->
  consistent cfg w'.
Proof.
  intros Hc Hm Hr. break_world w. destruct cfg as [ty dir ? ? ? ? ? ? ?], env.
  unfold consistent, remote, persistent, mode_of in *. cbn in Hm. subst mode.
  cbn in Hc. some_none. subst.
  destruct target; run_model Hr; injection Hr as <- <- <-; finish_consistent.
Qed.

Lemma from_Admin_consistent cfg env target w st w' tr :
  consistent cfg w -> mode_of w = kAdmin ->
  SetStorageMode cfg env target w = Done st w' tr ->
  consistent cfg w'.
Proof.
  intros Hc Hm Hr. break_world w. destruct cfg as [ty dir ? ? ? ? ? ? ?], env.
  unfold consistent, remote, persistent, mode_of in *. cbn in Hm. subst mode.
  cbn in Hc. some_none. subst.
  destruct target; run_model Hr; injection Hr as <- <- <-; finish_consistent.
Qed.

Lemma from_Readable_consistent cfg env target w st w' tr :
  consistent cfg w -> mode_of w = kReadable ->
  SetStorageMode cfg env target w = Done st w' tr ->
  consistent cfg w'.
Proof.
  intros Hc Hm Hr. break_world w. destruct cfg as [ty dir ? ? ? ? ? ? ?], env.
  unfold consistent, remote, persistent, mode_of in *. cbn in Hm. subst mode.
  cbn in Hc. some_none. subst. destruct pt; cbn in *; some_none.
  all: destruct target; run_model Hr; injection Hr as <- <- <-; finish_consistent.
Qed.

Lemma from_Writable_consistent cfg env target w st w' tr :
  consistent cfg w -> mode_of w = kWritable ->
  SetStorageMode cfg env target w = Done st w' tr ->
  consistent cfg w'.
Proof.
  intros Hc Hm Hr. break_world w. destruct cfg as [ty dir ? ? ? ? ? ? ?], env.
  unfold consistent, remote, persistent, mode_of in *. cbn in Hm. subst mode.
  cbn in Hc. some_none. subst.
  destruct target; run_model Hr; injection Hr as <- <- <-; finish_consistent.
Qed.

Lemma SetStorageMode_consistent cfg env target w st w' tr :
  consistent cfg w ->
  SetStorageMode cfg env target w = Done st w' tr ->
  consistent cfg w'.
Proof.
  intros Hc Hr. destruct (mode_of w) eqn:Hm.
  - eapply from_UnInitialized_consistent; eassumption.
  - eapply from_Admin_consistent; eassumption.
  - eapply from_Readable_consistent; eassumption.
  - eapply from_Writable_consistent; eassumption.
Qed.

Lemma SetReaderStorageContinue_consistent cfg ts w st w' tr :
  consistent cfg w ->
  SetReaderStorageContinue cfg ts w = Done st w' tr ->
  consistent cfg w'.
Proof.
  intros Hc Hr. break_world w. destruct cfg as [ty dir ? ? ? ? ? ? ?].
  unfold consistent, remote, persistent in *.
  destruct mode; cbn in Hc; some_none; subst.
  all: run_model Hr; injection Hr as <- <- <-; finish_consistent.
Qed.

Lemma AttachCatalog_consistent cfg deltas w u w' tr :
  consistent cfg w -> mode_of w = kReadable ->
  AttachCatalog deltas w = Done u w' tr ->
  consistent cfg w'.
Proof.
  intros Hc Hm Hr. break_world w.
  unfold consistent, mode_of in *. cbn in Hm. subst mode.
  cbn in Hc. some_none.
  run_model Hr; injection Hr as <- <- <-; finish_consistent.
Qed.

Lemma run_op_consistent cfg o w u w' tr :
  consistent cfg w -> permitted o w = true ->
  run_op cfg o w = Done u w' tr ->
  consistent cfg w'.
Proof.
  intros Hc Hp Hr. destruct o; unfold run_op in Hr.
  - unfold bind in Hr.
    destruct (SetStorageMode cfg env target_mode w) as [st w1 t1| |] eqn:E;
      try discriminate.
    cbn in Hr. injection Hr as <- <- <-.
    eapply SetStorageMode_consistent; eassumption.
  - eapply AttachCatalog_consistent; try eassumption.
    unfold permitted in Hp. unfold mode_of.
    destruct (current_storage_mode_ (storage w)); (reflexivity || discriminate).
  - unfold bind in Hr.
    destruct (SetReaderStorageContinue cfg system_start_ts w) as [st w1 t1| |] eqn:E;
      try discriminate.
    cbn in Hr. injection Hr as <- <- <-.
    eapply SetReaderStorageContinue_consistent; eassumption.
Qed.

Lemma run_consistent cfg ops : forall w w',
  consistent cfg w -> run cfg ops w = Some w' -> consistent cfg w'.
Proof.
  induction ops as [|o rest IH]; intros w w' Hc Hrun; cbn in Hrun.
  - injection Hrun as <-. assumption.
  - destruct (permitted o w) eqn:Hp; [|discriminate].
    destruct (run_op cfg o w) as [a w1 t1| |] eqn:E; try discriminate.
    eapply IH; [|eassumption]. eapply run_op_consistent; eassumption.
Qed.

Lemma reachable_consistent cfg w : reachable cfg w -> consistent cfg w.
Proof.
  intros (phase & ops & Hrun).
  eapply run_consistent; [apply consistent_new | eassumption].
Qed.

(* ------------------------------------------------------------------ *)
(** ** The uninitialised mode *)

(** C1, as amended: after any sequence of permitted calls from a fresh
    controller, a call of [SetStorageMode] that returns and leaves the mode
    uninitialised leaves every owned member null, with two possible
    exceptions: the cleanup tracer and the result cache. *)
Theorem C1_uninitialized_members_absent cfg phase ops w env target st w' tr :
  run cfg ops (new_World phase) = Some w ->
  SetStorageMode cfg env target w = Done st w' tr ->
  mode_of w' = kUnInitialized ->
  all_absent_but_cache_and_tracer (storage w').
Proof.
  intros Hrun Hr Hm.
  assert (Hc : consistent cfg w').
  { eapply SetStorageMode_consistent; [|eassumption].
    apply reachable_consistent. exists phase, ops. assumption. }
  unfold consistent in Hc. unfold mode_of in Hm. rewrite Hm in Hc.
  unfold all_absent_but_cache_and_tracer. tauto.
Qed.

Lemma C1_uninitialized_members_absent_witness :
  all_absent_but_cache_and_tracer (storage torn_down_world).
Proof.
  apply (C1_uninitialized_members_absent cfg_local kPhaseNone
           [set_mode_ok kAdmin; set_mode_ok kWritable] writable_world
           env_fresh kUnInitialized OK torn_down_world
           (trace_of (SetStorageMode cfg_local env_fresh kUnInitialized writable_world))).
  - vm_compute; reflexivity.
  - vm_compute; reflexivity.
  - reflexivity.
Defined.

(** C1 as stated fails: the tear-down from writable returns OK and leaves
    the mode uninitialised, and the result cache is still there. *)
Lemma C1_counterexample :
  run cfg_local [set_mode_ok kAdmin; set_mode_ok kWritable] (new_World kPhaseNone)
  = Some writable_world
  /\ (exists tr, SetStorageMode cfg_local env_fresh kUnInitialized writable_world
                 = Done OK torn_down_world tr)
  /\ mode_of torn_down_world = kUnInitialized
  /\ result_cache_manager_ (storage torn_down_world) = Some (mkResultCache 100)
  /\ ~ all_absent_but_cleanup_tracer (storage torn_down_world).
Proof.
  split; [vm_compute; reflexivity|].
  split; [eexists; vm_compute; reflexivity|].
  split; [reflexivity|]. split; [reflexivity|].
  unfold all_absent_but_cleanup_tracer. cbn. intros H.
  decompose [and] H. discriminate.
Qed.

(* ------------------------------------------------------------------ *)
(** ** Bring-up from the admin mode *)

(** C3: in a world reached from a fresh controller, with the mode admin
    and remote storage configured, a bring-up to readable or writable
    whose [InitRemoteStore] fails returns that error; the mode is admin
    again, the remote store is not initialised, and the world is the one
    before the call (the cleanup tracer has been replaced by a new one).
    The call initialised the store once and uninitialised it once. *)
Theorem C3_remote_init_failure_restores cfg phase ops w env target msg :
  run cfg ops (new_World phase) = Some w ->
  mode_of w = kAdmin ->
  StorageType_ cfg = kMinio ->
  target = kReadable \/ target = kWritable ->
  init_remote_status env = Error msg ->
  exists w',
    SetStorageMode cfg env target w
    = Done (Error msg) w'
        [EvConstruct CleanupTracer; EvDrop CleanupTracer;
         EvInitRemoteStore (Error msg); EvUnInitRemoteStore]
    /\ mode_of w' = kAdmin
    /\ remote_store_init w' = false
    /\ w' = w.
Proof.
  intros Hrun Hm Hty Ht Hst.
  assert (Hc : consistent cfg w).
  { apply reachable_consistent. exists phase, ops. assumption. }
  break_world w. destruct cfg as [ty dir ? ? ? ? ? ? ?], env as [st0 ? ? ?].
  unfold consistent, mode_of in *. cbn in Hm, Hty, Hst. subst mode ty st0.
  cbn in Hc. some_none. subst.
  match goal with o : Object |- _ => destruct o end.
  eexists. split; [destruct Ht as [-> | ->]; reflexivity | repeat split].
Qed.

Lemma C3_remote_init_failure_restores_witness :
  exists w',
    SetStorageMode cfg_minio env_bad_remote kWritable admin_world
    = Done (Error "bad credentials") w'
        [EvConstruct CleanupTracer; EvDrop CleanupTracer;
         EvInitRemoteStore (Error "bad credentials"); EvUnInitRemoteStore]
    /\ mode_of w' = kAdmin
    /\ remote_store_init w' = false
    /\ w' = admin_world.
Proof.
  apply (C3_remote_init_failure_restores cfg_minio kPhaseNone [set_mode_ok kAdmin]
           admin_world env_bad_remote kWritable "bad credentials").
  - vm_compute; reflexivity.
  - reflexivity.
  - reflexivity.
  - right; reflexivity.
  - reflexivity.
Defined.

(** What the bring-up to readable leaves, in a reachable world in the
    admin mode: the reader's first phase, the buffer manager and the result
    cache there, the later members not; the WAL manager is there exactly
    when it was there before. *)
Lemma admin_to_readable cfg phase ops w env st w' tr :
  run cfg ops (new_World phase) = Some w ->
  mode_of w = kAdmin ->
  SetStorageMode cfg env kReadable w = Done st w' tr ->
  st = OK ->
  mode_of w' = kReadable /\ phase_of w' = kPhase1
  /\ is_some (buffer_mgr_ (storage w')) = true
  /\ is_some (result_cache_manager_ (storage w')) = true
  /\ new_catalog_ (storage w') = None /\ txn_mgr_ (storage w') = None
  /\ bg_processor_ (storage w') = None
  /\ memory_index_tracer_ (storage w') = None
  /\ periodic_trigger_thread_ (storage w') = None
  /\ wal_mgr_ (storage w') = wal_mgr_ (storage w).
Proof.
  intros Hrun Hm Hr Hst.
  assert (Hc : consistent cfg w).
  { apply reachable_consistent. exists phase, ops. assumption. }
  break_world w. destruct cfg as [ty dir ? ? ? ? ? ? ?], env as [st0 ? ? ?].
  unfold consistent, mode_of, phase_of in *. cbn in Hm. subst mode.
  cbn in Hc. some_none. subst.
  run_model Hr; inversion Hr; subst; cbn; repeat split.
Qed.

(** C4 does not hold of the code.  [SetStorageMode(kUnInitialized)] in the admin
    mode drops the WAL manager and returns OK without setting the mode, so
    the controller stays in the admin mode without a WAL manager; the
    bring-up to readable from there returns OK in the first phase, and the
    WAL manager is absent. *)
Theorem C4_readable_without_wal :
  run cfg_local [set_mode_ok kAdmin; set_mode_ok kUnInitialized] (new_World kPhaseNone)
  = Some admin_world_without_wal
  /\ mode_of admin_world_without_wal = kAdmin
  /\ SetStorageMode cfg_local env_fresh kReadable admin_world_without_wal
     = Done OK reader_world_without_wal
         [EvConstruct CleanupTracer; EvDrop CleanupTracer;
          EvConstruct ResultCacheC; EvConstruct BufferMgr; EvStart BufferMgr]
  /\ mode_of reader_world_without_wal = kReadable
  /\ phase_of reader_world_without_wal = kPhase1
  /\ wal_mgr_ (storage reader_world_without_wal) = None.
Proof.
  split; [vm_compute; reflexivity|]. split; [reflexivity|].
  split; [vm_compute; reflexivity|]. split; [reflexivity|].
  split; reflexivity.
Qed.

(* ------------------------------------------------------------------ *)
(** ** Demotion and promotion *)

(** C8: in a world reached from a fresh controller, with the mode
    writable, [SetStorageMode(kReadable)] returns OK.  It stops and drops
    the periodic thread and the compaction processor, builds a periodic
    thread with the cleanup trigger alone, registers that trigger with the
    background processor and starts the thread; the mode is readable; the
    catalog, the transaction manager, the buffer manager and the WAL
    manager are present and as before, and so is the background processor
    but for the trigger registered with it. *)
Theorem C8_demotion cfg phase ops w env :
  run cfg ops (new_World phase) = Some w ->
  mode_of w = kWritable ->
  let cleanup_interval := positive_or_zero (CleanupInterval cfg) in
  exists w' bg,
    SetStorageMode cfg env kReadable w
    = Done OK w'
        [EvConstruct CleanupTracer; EvDrop CleanupTracer;
         EvStop PeriodicThread; EvDrop PeriodicThread;
         EvStop Compactor; EvDrop Compactor;
         EvConstruct PeriodicThread; EvSetCleanupTrigger cleanup_interval;
         EvStart PeriodicThread]
    /\ mode_of w' = kReadable
    /\ compact_processor_ (storage w') = None
    /\ periodic_trigger_thread_ (storage w')
       = Some (mkPeriodic None None None None (Some cleanup_interval) true)
    /\ bg_processor_ (storage w) = Some bg
    /\ bg_processor_ (storage w')
       = Some (mkBG (bg_running bg) (Some cleanup_interval))
    /\ new_catalog_ (storage w') = new_catalog_ (storage w)
    /\ txn_mgr_ (storage w') = txn_mgr_ (storage w)
    /\ buffer_mgr_ (storage w') = buffer_mgr_ (storage w)
    /\ wal_mgr_ (storage w') = wal_mgr_ (storage w)
    /\ is_some (new_catalog_ (storage w)) = true
    /\ is_some (txn_mgr_ (storage w)) = true
    /\ is_some (buffer_mgr_ (storage w)) = true
    /\ is_some (wal_mgr_ (storage w)) = true.
Proof.
  intros Hrun Hm.
  assert (Hc : consistent cfg w).
  { apply reachable_consistent. exists phase, ops. assumption. }
  break_world w. destruct cfg as [ty dir ? ? ? ? ? ? ?].
  unfold consistent, mode_of in *. cbn in Hm. subst mode.
  cbn in Hc. some_none.
  cbv zeta.
  match goal with |- exists w' bg, ?lhs = _ /\ _ => destruct lhs eqn:Hr end;
    run_model Hr.
  injection Hr as <- <- <-.
  eexists _, _. cbn. repeat split.
Qed.

Lemma C8_demotion_witness :
  exists w',
    SetStorageMode cfg_local env_fresh kReadable writable_world
    = Done OK w'
        [EvConstruct CleanupTracer; EvDrop CleanupTracer;
         EvStop PeriodicThread; EvDrop PeriodicThread;
         EvStop Compactor; EvDrop Compactor;
         EvConstruct PeriodicThread; EvSetCleanupTrigger 10;
         EvStart PeriodicThread]
    /\ mode_of w' = kReadable
    /\ compact_processor_ (storage w') = None.
Proof.
  destruct (C8_demotion cfg_local kPhaseNone
              [set_mode_ok kAdmin; set_mode_ok kWritable] writable_world env_fresh)
    as (w' & bg & E & Hm & Hcp & _).
  - vm_compute; reflexivity.
  - reflexivity.
  - exists w'. split; [exact E|]. split; assumption.
Defined.

(** In a reachable world in the readable mode with the reader in its
    second phase, the members that the promotion uses are there, and the
    promotion returns OK in the writable mode. *)
Lemma phase2_promotion_safe cfg phase ops w env :
  run cfg ops (new_World phase) = Some w ->
  mode_of w = kReadable ->
  phase_of w = kPhase2 ->
  is_some (periodic_trigger_thread_ (storage w)) = true
  /\ is_some (new_catalog_ (storage w)) = true
  /\ is_some (txn_mgr_ (storage w)) = true
  /\ exists w' tr, SetStorageMode cfg env kWritable w = Done OK w' tr
                   /\ mode_of w' = kWritable.
Proof.
  intros Hrun Hm Hph.
  assert (Hc : consistent cfg w).
  { apply reachable_consistent. exists phase, ops. assumption. }
  break_world w. destruct cfg as [ty dir ? ? ? ? ? ? ?].
  unfold consistent, mode_of, phase_of in *. cbn in Hm, Hph. subst mode ph.
  cbn in Hc.
  destruct Hc as (? & ? & ? & ? & ? & ? & ? & ? & ? & ? & Hpt & Hph).
  specialize (Hph eq_refl). specialize (Hpt Hph).
  some_none. subst. cbn in * |-. some_none.
  do 3 (split; [reflexivity|]).
  match goal with |- context [SetStorageMode ?c ?e ?t ?w] =>
    destruct (SetStorageMode c e t w) eqn:Hr end; run_model Hr.
  injection Hr as <- <- <-. eexists _, _. split; reflexivity.
Qed.

(** C9 does not hold of the code.  A writable bring-up never sets the reader
    phase, and neither does the demotion: after admin, readable, admin,
    writable, readable the mode is readable, the phase is the first, and
    the periodic thread, the catalog and the transaction manager are there.
    The promotion from this world returns OK, outside the second phase; the
    tear-down from it aborts on the phase. *)
Theorem C9_promotion_outside_phase2 :
  run cfg_local
      [set_mode_ok kAdmin; set_mode_ok kReadable; set_mode_ok kAdmin;
       set_mode_ok kWritable; set_mode_ok kReadable] (new_World kPhaseNone)
  = Some demoted_phase1_world
  /\ mode_of demoted_phase1_world = kReadable
  /\ phase_of demoted_phase1_world = kPhase1
  /\ SetStorageMode cfg_local env_fresh kWritable demoted_phase1_world
     = Done OK promoted_world
         [EvConstruct CleanupTracer; EvDrop CleanupTracer;
          EvConstruct Compactor; EvStart Compactor;
          EvStop PeriodicThread; EvStart PeriodicThread]
  /\ SetStorageMode cfg_local env_fresh kUnInitialized demoted_phase1_world
     = Fatal "Error reader init phase"
         [EvConstruct CleanupTracer; EvDrop CleanupTracer].
Proof.
  split; [vm_compute; reflexivity|]. split; [reflexivity|]. split; [reflexivity|].
  split; vm_compute; reflexivity.
Qed.

(** The promotion of a reader that is still in the first phase of its own
    bring-up calls [Stop] through the null periodic thread. *)
Example promotion_in_phase1 :
  SetStorageMode cfg_local env_fresh kWritable reader_phase1_world
  = NullDeref [EvConstruct CleanupTracer; EvDrop CleanupTracer;
               EvConstruct Compactor; EvStart Compactor].
Proof. vm_compute; reflexivity. Qed.


(* ------------------------------------------------------------------ *)
(** ** Tear-down of a reader in its first phase *)

Lemma steps_bind {A B} (m : M A) (f : A -> M B) w a w1 b w2 :
  steps_to m w a w1 -> steps_to (f a) w1 b w2 -> steps_to (bind m f) w b w2.
Proof.
  intros [t1 E1] [t2 E2]. exists (t1 ++ t2). unfold bind. rewrite E1, E2. reflexivity.
Qed.

(** Run one part of the model; where it tests a member that may or may not
    be there, both cases must end in the same world. *)
Ltac run_part :=
  unfold steps_to;
  cbv [uninit_remote_store stop_and_reset stop_and_reset_phase2 expect_null
       GetStorageMode set_mode set_phase make_unique reset call start stop
       assign_through not_null when bind ret emit UnrecoverableError null_deref
       get_storage modify_storage IsInit InitRemoteStore UnInitRemoteStore
       wal_m catalog_m txn_m buffer_m persistence_m object_storage_m bg_m compact_m
       memidx_m periodic_m result_cache_m cleanup_m m_get m_set m_component
       set_current_storage_mode_ set_reader_init_phase_ set_wal_mgr_ set_new_catalog_
       set_txn_mgr_ set_buffer_mgr_ set_persistence_manager_
       set_object_storage_processor_ set_bg_processor_ set_compact_processor_
       set_memory_index_tracer_ set_periodic_trigger_thread_
       set_result_cache_manager_ set_cleanup_info_tracer_
       storage remote_store_init
       current_storage_mode_ reader_init_phase_ wal_mgr_ new_catalog_ txn_mgr_
       buffer_mgr_ persistence_manager_ object_storage_processor_ bg_processor_
       compact_processor_ memory_index_tracer_ periodic_trigger_thread_
       result_cache_manager_ cleanup_info_tracer_ StorageType_
       is_some StorageMode_eqb ReaderInitPhase_eqb negb andb orb app];
  repeat match goal with
  | |- context [match ?x with _ => _ end] => is_var x; destruct x
  end;
  eexists; reflexivity.

Ltac steps :=
  lazymatch goal with
  | |- steps_to (bind _ _) _ _ _ =>
      eapply steps_bind; [steps | cbv beta; cbn [StorageMode_eqb orb negb]; steps]
  | |- steps_to (when true ?m) _ _ _ => change (when true m) with m; steps
  | |- steps_to ?m _ _ _ =>
      first [ run_part
            | let h := head_of m in
              unfold h; cbn [StorageMode_eqb orb negb]; steps ]
  end.

Lemma aborts_later {A B} (m : M A) (f : A -> M B) w a w1 :
  steps_to m w a w1 -> is_fatal (f a w1) = true -> is_fatal (bind m f w) = true.
Proof.
  intros [t1 E1] H. unfold bind. rewrite E1.
  destruct (f a w1); (reflexivity || discriminate).
Qed.

Lemma aborts_now {A B} (m : M A) (f : A -> M B) w :
  is_fatal (m w) = true -> is_fatal (bind m f w) = true.
Proof. intros H. unfold bind. destruct (m w); (reflexivity || discriminate). Qed.

(** The same for a part that aborts. *)
Ltac abort_part :=
  cbv [is_fatal stop_and_reset stop_and_reset_phase2 expect_null uninit_remote_store
       make_unique reset call start stop
       assign_through not_null when bind ret emit UnrecoverableError null_deref
       get_storage modify_storage
       wal_m catalog_m txn_m buffer_m persistence_m object_storage_m bg_m compact_m
       memidx_m periodic_m result_cache_m cleanup_m m_get m_set m_component
       storage remote_store_init
       current_storage_mode_ reader_init_phase_ wal_mgr_ new_catalog_ txn_mgr_
       buffer_mgr_ persistence_manager_ object_storage_processor_ bg_processor_
       compact_processor_ memory_index_tracer_ periodic_trigger_thread_
       result_cache_manager_ cleanup_info_tracer_ StorageType_
       is_some StorageMode_eqb ReaderInitPhase_eqb negb andb orb app];
  reflexivity.

Ltac aborts :=
  lazymatch goal with
  | |- is_fatal (bind _ _ _) = true =>
      first [ eapply aborts_later;
              [steps | cbv beta; cbn [StorageMode_eqb orb negb]; aborts]
            | apply aborts_now; aborts ]
  | |- is_fatal (when true ?m ?w) = true => change (when true m) with m; aborts
  | |- is_fatal (?m ?w) = true =>
      first [ abort_part
            | let h := head_of m in
              unfold h; cbn [StorageMode_eqb orb negb]; aborts ]
  end.

Lemma steps_to_not_fatal {A} (m : M A) w a w' :
  steps_to m w a w' -> is_fatal (m w) = false.
Proof. intros [tr E]. rewrite E. reflexivity. Qed.

Lemma readable_teardown_returns cfg env target ph wal cat buf pm osp mi rc ct vs :
  target = kUnInitialized \/ target = kAdmin ->
  unsupported cfg = false ->
  let w := mkWorld (mkStorage kReadable ph wal cat None buf pm osp None None mi
                      None rc ct) vs in
  SetStorageMode cfg env target w
  = Done OK (reader_torn_down cfg target w) (reader_teardown_trace cfg target w).
Proof.
  intros Ht Hty. destruct cfg as [ty dir ? ? ? ? ? ? ?].
  destruct ty; try discriminate Hty; destruct Ht as [-> | ->].
  all: destruct wal, cat, buf, pm, osp, mi, ct; vm_compute; reflexivity.
Qed.

(** C5, as amended: with the mode readable and the reader not in its
    second phase, [SetStorageMode] to the uninitialised or the admin mode
    aborts exactly when the periodic thread, the compaction processor, the
    background processor or the transaction manager is there (or the
    storage type is unsupported).  When none of them is there, as after the
    bring-up to readable, the tear-down is carried out: the call returns OK
    in the target mode; the catalog and the memory index tracer have been
    dropped, the WAL manager and the buffer manager stopped and dropped,
    with remote storage the object storage processor stopped and dropped
    and the remote store uninitialised, the persistence manager dropped,
    and for the admin mode a WAL manager constructed anew; the result
    cache and the reader phase are as before. *)
Theorem C5_phase1_teardown cfg env target w :
  mode_of w = kReadable ->
  phase_of w <> kPhase2 ->
  target = kUnInitialized \/ target = kAdmin ->
  let s := storage w in
  let guarded :=
    is_some (periodic_trigger_thread_ s) || is_some (compact_processor_ s)
    || is_some (bg_processor_ s) || is_some (txn_mgr_ s) || unsupported cfg in
  is_fatal (SetStorageMode cfg env target w) = guarded
  /\ (guarded = false ->
      SetStorageMode cfg env target w
      = Done OK (reader_torn_down cfg target w)
          (reader_teardown_trace cfg target w)).
Proof.
  intros Hm Hph Ht. break_world w.
  unfold mode_of, phase_of in Hm, Hph. cbn in Hm, Hph. subst mode.
  cbv zeta. cbn [storage periodic_trigger_thread_ compact_processor_ bg_processor_
                 txn_mgr_].
  destruct (is_some pt || is_some cp || is_some bg || is_some txn || unsupported cfg)
    eqn:Hg.
  - split; [|discriminate].
    destruct cfg as [ty dir ? ? ? ? ? ? ?]. unfold unsupported in Hg. cbn in Hg.
    destruct Ht as [-> | ->].
    all: destruct ph; try congruence.
    all: destruct pt, cp, bg, txn, ty; try discriminate Hg.
    all: destruct osp; aborts.
  - repeat (apply orb_false_iff in Hg as [Hg ?]). some_none.
    pose proof (readable_teardown_returns cfg env target ph wal cat buf pm osp mi
                  rc ct vs Ht ltac:(assumption)) as E.
    cbv zeta in E. rewrite E. split; [reflexivity | intros _; reflexivity].
Qed.

Lemma C5_phase1_teardown_witness :
  SetStorageMode cfg_local env_fresh kUnInitialized reader_phase1_world
  = Done OK torn_down_reader_world
      [EvConstruct CleanupTracer; EvDrop CleanupTracer;
       EvStop Wal; EvDrop Wal; EvStop BufferMgr; EvDrop BufferMgr].
Proof.
  refine (proj2 (C5_phase1_teardown cfg_local env_fresh kUnInitialized
                   reader_phase1_world _ _ _) eq_refl).
  - reflexivity.
  - cbn; discriminate.
  - left; reflexivity.
Defined.

(** C5 as stated fails: the reader that its bring-up left in the first
    phase is torn down without a fatal error. *)
Lemma C5_counterexample :
  run cfg_local [set_mode_ok kAdmin; set_mode_ok kReadable] (new_World kPhaseNone)
  = Some reader_phase1_world
  /\ mode_of reader_phase1_world = kReadable
  /\ phase_of reader_phase1_world = kPhase1
  /\ SetStorageMode cfg_local env_fresh kUnInitialized reader_phase1_world
     = Done OK torn_down_reader_world
         [EvConstruct CleanupTracer; EvDrop CleanupTracer;
          EvStop Wal; EvDrop Wal; EvStop BufferMgr; EvDrop BufferMgr]
  /\ is_fatal (SetStorageMode cfg_local env_fresh kUnInitialized reader_phase1_world)
     = false.
Proof.
  split; [vm_compute; reflexivity|]. split; [reflexivity|]. split; [reflexivity|].
  split; vm_compute; reflexivity.
Qed.

(* ------------------------------------------------------------------ *)
(** ** The default database *)

(** C7: in a world reached from a fresh controller, with the mode admin,
    a call of [SetStorageMode] that returns OK has run the transaction that
    creates [default_db] exactly when the target is writable and the replay
    returned timestamp 0; the transaction is begun, creates "default_db"
    with the comment "Initial startup created", and is committed, and no
    other database is created.  A failed [CreateDatabase] aborts the
    process. *)
Theorem C7_default_db cfg phase ops env target w :
  run cfg ops (new_World phase) = Some w ->
  mode_of w = kAdmin ->
  (forall w' tr,
      SetStorageMode cfg env target w = Done OK w' tr ->
      has_default_db_txn tr
      = (replay_ts env =? 0) && StorageMode_eqb target kWritable
      /\ count_create_database tr = (if has_default_db_txn tr then 1 else 0)%nat)
  /\ (existsb is_failed_create_database (trace_of (SetStorageMode cfg env target w))
      = true ->
      exists tr, SetStorageMode cfg env target w
                 = Fatal "Can't initial 'default_db'" tr).
Proof.
  intros Hrun Hm.
  assert (Hc : consistent cfg w).
  { apply reachable_consistent. exists phase, ops. assumption. }
  clear Hrun. break_world w.
  unfold consistent, mode_of in *. cbn in Hm. subst mode. cbn in Hc. some_none. subst.
  destruct cfg as [ty dir ? ? ? ? ? ? ?], env as [st0 ts att cst].
  cbn [replay_ts].
  remember (SetStorageMode _ _ target _) as out eqn:Hr. symmetry in Hr.
  destruct target; unfold_model Hr;
    repeat (split_stuck Hr; cbv beta iota in Hr); subst out.
  all: split;
    [ intros w' tr E; try discriminate E; injection E as <- <-; use_tests;
      cbn [StorageMode_eqb]; rewrite ?andb_false_r, ?andb_true_r;
      split; reflexivity
    | cbn; intros E; try discriminate E; eexists; reflexivity ].
Qed.

Lemma C7_default_db_witness :
  has_default_db_txn first_start_trace = true
  /\ count_create_database first_start_trace = 1%nat.
Proof.
  assert (E : SetStorageMode cfg_local env_fresh kWritable admin_world
              = Done OK writable_world first_start_trace)
    by (vm_compute; reflexivity).
  destruct (proj1 (C7_default_db cfg_local kPhaseNone [set_mode_ok kAdmin] env_fresh
                     kWritable admin_world eq_refl eq_refl)
                  writable_world first_start_trace E) as [H1 H2].
  rewrite H1 in H2. split; [exact H1 | exact H2].
Defined.

(** The bring-up of a first start creates the default database. *)
Example first_start_creates_default_db :
  has_default_db_txn
    (trace_of (SetStorageMode cfg_local env_fresh kWritable admin_world)) = true.
Proof. vm_compute; reflexivity. Qed.

(** After a replay that found data it does not. *)
Example replayed_start_creates_no_database :
  count_create_database
    (trace_of (SetStorageMode cfg_local env_replayed kWritable admin_world)) = 0%nat
  /\ exists w' tr,
       SetStorageMode cfg_local env_replayed kWritable admin_world = Done OK w' tr.
Proof. split; [vm_compute; reflexivity | eexists _, _; vm_compute; reflexivity]. Qed.

(* ------------------------------------------------------------------ *)
(** ** The objects behind the members, in every reachable world *)

Ltac finish_settled :=
  cbn in *; some_none; cbn in *; subst; use_tests; cbn;
  repeat match goal with
  | s : Service |- _ => destruct s
  | o : Object |- _ => destruct o
  end;
  cbn in *; subst;
  repeat split; try reflexivity; try congruence; try discriminate; try tauto.

Lemma settled_new cfg phase : settled cfg (new_World phase).
Proof. cbn. repeat split. Qed.

Lemma SetStorageMode_settled cfg env target w st w' tr :
  consistent cfg w -> settled cfg w ->
  SetStorageMode cfg env target w = Done st w' tr ->
  settled cfg w'.
Proof.
  intros Hc Hs Hr. break_world w. destruct cfg as [ty dir ? ? ? ? ? ? ?], env.
  unfold consistent, settled, started, writable_periodic, cleanup_periodic,
    remote, persistent, unsupported in *.
  destruct mode; cbn in Hc, Hs; some_none; subst.
  3: destruct pt; cbn in *; some_none.
  all: destruct target; run_model Hr; injection Hr as <- <- <-; finish_settled.
Qed.

Lemma SetReaderStorageContinue_settled cfg ts w st w' tr :
  consistent cfg w -> settled cfg w ->
  SetReaderStorageContinue cfg ts w = Done st w' tr ->
  settled cfg w'.
Proof.
  intros Hc Hs Hr. break_world w. destruct cfg as [ty dir ? ? ? ? ? ? ?].
  unfold consistent, settled, started, writable_periodic, cleanup_periodic,
    remote, persistent, unsupported in *.
  destruct mode; cbn in Hc, Hs; some_none; subst.
  all: run_model Hr.
  all: injection Hr as <- <- <-.
  all: finish_settled.
Qed.

Lemma AttachCatalog_settled cfg deltas w u w' tr :
  settled cfg w ->
  AttachCatalog deltas w = Done u w' tr ->
  settled cfg w'.
Proof.
  intros Hs Hr. break_world w.
  run_model Hr; injection Hr as <- <- <-; exact Hs.
Qed.

Lemma run_settled cfg ops : forall w w',
  consistent cfg w -> settled cfg w -> run cfg ops w = Some w' -> settled cfg w'.
Proof.
  induction ops as [|o rest IH]; intros w w' Hc Hs Hrun; cbn in Hrun.
  - injection Hrun as <-. assumption.
  - destruct (permitted o w) eqn:Hp; [|discriminate].
    destruct (run_op cfg o w) as [a w1 t1| |] eqn:E; try discriminate.
    assert (Hc1 : consistent cfg w1) by (eapply run_op_consistent; eassumption).
    eapply IH; [exact Hc1| |eassumption].
    destruct o; unfold run_op in E.
    + unfold bind in E.
      destruct (SetStorageMode cfg env target_mode w) as [st w2 t2| |] eqn:E2;
        try discriminate.
      cbn in E. injection E as <- <- <-.
      eapply (SetStorageMode_settled cfg env target_mode w); eassumption.
    + eapply (AttachCatalog_settled cfg deltas w); eassumption.
    + unfold bind in E.
      destruct (SetReaderStorageContinue cfg system_start_ts w) as [st w2 t2| |] eqn:E2;
        try discriminate.
      cbn in E. injection E as <- <- <-.
      eapply (SetReaderStorageContinue_settled cfg system_start_ts w); eassumption.
Qed.

Lemma reachable_settled cfg w : reachable cfg w -> settled cfg w.
Proof.
  intros (phase & ops & Hrun).
  eapply run_settled; [apply consistent_new | apply settled_new | eassumption].
Qed.

(** X1: in every world reached from a fresh controller, each service that
    is there has been started and not stopped (buffer manager, transaction
    manager, compaction processor, object storage processor, background
    processor), and the WAL manager runs exactly when there is a
    transaction manager: it is constructed in the admin mode and started
    only after the transaction manager. *)
Theorem services_started cfg phase ops w :
  run cfg ops (new_World phase) = Some w ->
  let s := storage w in
  (forall x, buffer_mgr_ s = Some x -> running x = true)
  /\ (forall x, txn_mgr_ s = Some x -> running x = true)
  /\ (forall x, compact_processor_ s = Some x -> running x = true)
  /\ (forall x, object_storage_processor_ s = Some x -> running x = true)
  /\ (forall b, bg_processor_ s = Some b -> bg_running b = true)
  /\ (forall x, wal_mgr_ s = Some x -> running x = is_some (txn_mgr_ s)).
Proof.
  intros Hrun s.
  assert (Hs : settled cfg w) by (apply reachable_settled; exists phase, ops; exact Hrun).
  unfold settled, started in Hs. fold s in Hs.
  destruct Hs as (Hb & Ht & Hc & Ho & Hw & Hbg & _).
  repeat split; intros x E; rewrite E in *; try assumption.
  subst x. reflexivity.
Qed.

Lemma services_started_witness :
  running (mkService false) = is_some (txn_mgr_ (storage reader_phase1_world)).
Proof.
  refine (proj2 (proj2 (proj2 (proj2 (proj2
    (services_started cfg_local kPhaseNone [set_mode_ok kAdmin; set_mode_ok kReadable]
       reader_phase1_world _))))) (mkService false) eq_refl).
  vm_compute; reflexivity.
Defined.

Lemma positive_or_zero_nonneg x : 0 <= positive_or_zero x.
Proof. unfold positive_or_zero. destruct (0 <? x) eqn:E; [apply Z.ltb_lt in E|]; lia. Qed.

(** X2: in every reachable world the periodic thread, when there is one,
    runs; in the writable mode it carries the five triggers, in every
    other mode the cleanup trigger alone; each interval is the configured
    one, or 0 when that is not positive; and the cleanup trigger is the one
    registered with the background processor. *)
Theorem periodic_triggers_by_mode cfg phase ops w p :
  run cfg ops (new_World phase) = Some w ->
  periodic_trigger_thread_ (storage w) = Some p ->
  p = (if StorageMode_eqb (mode_of w) kWritable
       then writable_periodic cfg else cleanup_periodic cfg)
  /\ (exists b, bg_processor_ (storage w) = Some b
                /\ bg_cleanup_trigger b = cleanup_trigger_ p)
  /\ (forall t, In (Some t) [full_checkpoint_trigger_ p; delta_checkpoint_trigger_ p;
                             compact_segment_trigger_ p; optimize_index_trigger_ p;
                             cleanup_trigger_ p] -> 0 <= t).
Proof.
  intros Hrun Hp.
  assert (Hr : reachable cfg w) by (exists phase, ops; exact Hrun).
  pose proof (reachable_settled cfg w Hr) as Hs.
  pose proof (reachable_consistent cfg w Hr) as Hc.
  unfold settled in Hs. rewrite Hp in Hs.
  destruct Hs as (_ & _ & _ & _ & _ & Hbg & Hpt & _).
  unfold mode_of. split; [exact Hpt|]. split.
  - assert (Hb : is_some (bg_processor_ (storage w)) = true).
    { unfold consistent in Hc.
      destruct (current_storage_mode_ (storage w)); rewrite ?Hp in Hc; cbn in Hc;
        decompose [and] Hc; try congruence. }
    destruct (bg_processor_ (storage w)) as [b|]; [|discriminate].
    exists b. split; [reflexivity|]. subst b p.
    destruct (StorageMode_eqb _ _); reflexivity.
  - intros t Ht. subst p.
    destruct (StorageMode_eqb _ _); cbn in Ht;
      repeat (destruct Ht as [Ht|Ht];
              [first [discriminate Ht
                     | injection Ht as <-; apply positive_or_zero_nonneg]|]);
      contradiction.
Qed.

Lemma periodic_triggers_by_mode_witness :
  mkPeriodic (Some 30) (Some 5) (Some 10) (Some 10) (Some 10) true
  = writable_periodic cfg_local.
Proof.
  refine (proj1 (periodic_triggers_by_mode cfg_local kPhaseNone
                   [set_mode_ok kAdmin; set_mode_ok kWritable] writable_world
                   (mkPeriodic (Some 30) (Some 5) (Some 10) (Some 10) (Some 10) true)
                   _ eq_refl)).
  vm_compute; reflexivity.
Defined.

(** X3: in every reachable world the compaction processor is there
    exactly in the writable mode. *)
Theorem compaction_only_in_writable cfg phase ops w :
  run cfg ops (new_World phase) = Some w ->
  (is_some (compact_processor_ (storage w)) = true <-> mode_of w = kWritable).
Proof.
  intros Hrun.
  assert (Hc : consistent cfg w) by (apply reachable_consistent; exists phase, ops; exact Hrun).
  unfold consistent in Hc. unfold mode_of.
  destruct (current_storage_mode_ (storage w)); decompose [and] Hc; clear Hc;
    split; intros Hx; try reflexivity; try discriminate; try assumption;
    match goal with E : compact_processor_ _ = None |- _ => rewrite E in Hx end;
    discriminate.
Qed.

Lemma compaction_only_in_writable_witness :
  is_some (compact_processor_ (storage writable_world)) = true
  <-> mode_of writable_world = kWritable.
Proof.
  apply (compaction_only_in_writable cfg_local kPhaseNone
           [set_mode_ok kAdmin; set_mode_ok kWritable]).
  vm_compute; reflexivity.
Defined.

(** X4: in every reachable world the remote store is initialised exactly
    when the object storage processor is there, and that is exactly in the
    readable and writable modes with the storage type [kMinio]: each
    initialisation has been undone by the time the controller is back in
    the admin or the uninitialised mode. *)
Theorem remote_store_paired cfg phase ops w :
  run cfg ops (new_World phase) = Some w ->
  remote_store_init w = is_some (object_storage_processor_ (storage w))
  /\ (remote_store_init w = true <->
      (mode_of w = kReadable \/ mode_of w = kWritable) /\ StorageType_ cfg = kMinio).
Proof.
  intros Hrun.
  assert (Hc : consistent cfg w) by (apply reachable_consistent; exists phase, ops; exact Hrun).
  unfold consistent, remote in Hc. unfold mode_of.
  destruct (current_storage_mode_ (storage w)); decompose [and] Hc; clear Hc;
    repeat match goal with
    | E : object_storage_processor_ _ = None |- _ => rewrite E
    | E : remote_store_init _ = _ |- _ => rewrite E
    | E : is_some (object_storage_processor_ _) = _ |- _ => rewrite E
    end;
    (split; [reflexivity|]);
    destruct (StorageType_ cfg); cbn;
    intuition (try discriminate; try congruence).
Qed.

Lemma remote_store_paired_witness :
  remote_store_init minio_writable_world
  = is_some (object_storage_processor_ (storage minio_writable_world)).
Proof.
  refine (proj1 (remote_store_paired cfg_minio kPhaseNone
                   [set_mode_ok kAdmin; set_mode_ok kWritable] minio_writable_world _)).
  vm_compute; reflexivity.
Defined.

(** X5: in every reachable world the background processor, the transaction
    manager, the memory index tracer and the periodic thread are there
    together or not at all, and when they are there the catalog, the WAL
    manager and the buffer manager, which they point into, are there
    too. *)
Theorem background_members_together cfg phase ops w :
  run cfg ops (new_World phase) = Some w ->
  let s := storage w in
  is_some (bg_processor_ s) = is_some (periodic_trigger_thread_ s)
  /\ is_some (txn_mgr_ s) = is_some (periodic_trigger_thread_ s)
  /\ is_some (memory_index_tracer_ s) = is_some (periodic_trigger_thread_ s)
  /\ (is_some (periodic_trigger_thread_ s) = true ->
      is_some (new_catalog_ s) = true /\ is_some (wal_mgr_ s) = true
      /\ is_some (buffer_mgr_ s) = true).
Proof.
  intros Hrun s.
  assert (Hc : consistent cfg w) by (apply reachable_consistent; exists phase, ops; exact Hrun).
  unfold consistent in Hc. fold s in Hc.
  destruct (current_storage_mode_ s); decompose [and] Hc; clear Hc;
    repeat match goal with
    | E : _ s = None |- _ => rewrite E
    | E : is_some (_ s) = true |- _ => rewrite E
    end; cbn; intuition (try discriminate; try congruence).
Qed.

Lemma background_members_together_witness :
  is_some (bg_processor_ (storage reader_phase1_world))
  = is_some (periodic_trigger_thread_ (storage reader_phase1_world)).
Proof.
  refine (proj1 (background_members_together cfg_local kPhaseNone
                   [set_mode_ok kAdmin; set_mode_ok kReadable] reader_phase1_world _)).
  vm_compute; reflexivity.
Defined.

(** X6: in every reachable world in the readable or the writable mode the
    buffer manager and the result cache are there, the persistence manager
    is there exactly when the persistence directory is not empty, and the
    object storage processor exactly when the storage type is [kMinio]; in
    the writable mode the WAL manager, the catalog, the transaction
    manager, the background processor, the compaction processor, the
    memory index tracer and the periodic thread are there as well. *)
Theorem data_mode_members cfg phase ops w :
  run cfg ops (new_World phase) = Some w ->
  mode_of w = kReadable \/ mode_of w = kWritable ->
  let s := storage w in
  is_some (buffer_mgr_ s) = true
  /\ is_some (result_cache_manager_ s) = true
  /\ is_some (persistence_manager_ s) = persistent cfg
  /\ is_some (object_storage_processor_ s) = remote cfg
  /\ (mode_of w = kWritable ->
      is_some (wal_mgr_ s) = true /\ is_some (new_catalog_ s) = true
      /\ is_some (txn_mgr_ s) = true /\ is_some (bg_processor_ s) = true
      /\ is_some (compact_processor_ s) = true
      /\ is_some (memory_index_tracer_ s) = true
      /\ is_some (periodic_trigger_thread_ s) = true).
Proof.
  intros Hrun Hm s.
  assert (Hc : consistent cfg w) by (apply reachable_consistent; exists phase, ops; exact Hrun).
  unfold consistent in Hc. unfold mode_of in *. fold s in Hc, Hm |- *.
  destruct (current_storage_mode_ s);
    [destruct Hm; discriminate | destruct Hm; discriminate | |];
    decompose [and] Hc; clear Hc; intuition (try discriminate).
Qed.

Lemma data_mode_members_witness :
  is_some (persistence_manager_ (storage minio_writable_world)) = persistent cfg_minio.
Proof.
  refine (proj1 (proj2 (proj2 (data_mode_members cfg_minio kPhaseNone
                   [set_mode_ok kAdmin; set_mode_ok kWritable] minio_writable_world
                   _ _)))).
  - vm_compute; reflexivity.
  - right; reflexivity.
Defined.

(** X7: [result_cache_manager] hands out nothing unless the configuration
    says "on", whatever the member holds; with "on", in every reachable
    world in the readable or the writable mode it hands out the result
    cache, whose capacity is the configured number as stored in a [SizeT]:
    the number reduced modulo [2^64], which is in range and is the number
    itself when that is in range (a negative setting wraps around). *)
Theorem result_cache_accessor cfg :
  (forall w, ResultCache cfg <> "on" -> result_cache_manager cfg w = Done None w [])
  /\ (forall phase ops w,
        run cfg ops (new_World phase) = Some w ->
        mode_of w = kReadable \/ mode_of w = kWritable ->
        ResultCache cfg = "on" ->
        result_cache_manager cfg w
        = Done (Some (mkResultCache (to_SizeT (CacheResultNum cfg)))) w [])
  /\ 0 <= to_SizeT (CacheResultNum cfg) < SizeT_modulus
  /\ (0 <= CacheResultNum cfg < SizeT_modulus ->
      to_SizeT (CacheResultNum cfg) = CacheResultNum cfg).
Proof.
  split; [| split; [| split]].
  - intros w Hoff. unfold result_cache_manager.
    destruct (String.eqb_spec (ResultCache cfg) "on"); [contradiction|reflexivity].
  - intros phase ops w Hrun Hm Hon.
    assert (Hr : reachable cfg w) by (exists phase, ops; exact Hrun).
    pose proof (reachable_settled cfg w Hr) as Hs.
    pose proof (reachable_consistent cfg w Hr) as Hc.
    assert (Hrc : is_some (result_cache_manager_ (storage w)) = true).
    { unfold consistent in Hc. unfold mode_of in Hm.
      destruct (current_storage_mode_ (storage w));
        destruct Hm; try discriminate; decompose [and] Hc; assumption. }
    clear Hc.
    unfold settled in Hs. destruct Hs as (_ & _ & _ & _ & _ & _ & _ & Hcap & _).
    unfold result_cache_manager, GetResultCacheManagerPtr, bind, get_storage, ret.
    rewrite Hon. cbn.
    destruct (result_cache_manager_ (storage w)); [|discriminate].
    subst. reflexivity.
  - unfold to_SizeT, SizeT_modulus. apply Z.mod_pos_bound. lia.
  - intros Hr. unfold to_SizeT. apply Z.mod_small. exact Hr.
Qed.

Lemma result_cache_accessor_witness :
  result_cache_manager cfg_local writable_world
  = Done (Some (mkResultCache 100)) writable_world [].
Proof.
  refine (proj1 (proj2 (result_cache_accessor cfg_local)) kPhaseNone
            [set_mode_ok kAdmin; set_mode_ok kWritable] writable_world _ _ eq_refl).
  - vm_compute; reflexivity.
  - right; reflexivity.
Defined.

(* ------------------------------------------------------------------ *)
(** ** From the uninitialised mode *)

(** X8: from any world in the uninitialised mode, [SetStorageMode(kAdmin)]
    aborts when there is a WAL manager already; otherwise it returns OK,
    the mode is admin, a WAL manager has been constructed and not
    started, the cleanup tracer is a new one, and nothing else has
    changed. *)
Theorem uninitialized_to_admin cfg env w :
  mode_of w = kUnInitialized ->
  match wal_mgr_ (storage w) with
  | Some _ =>
      exists tr, SetStorageMode cfg env kAdmin w
                 = Fatal "WAL manager was initialized before." tr
  | None =>
      exists tr,
        SetStorageMode cfg env kAdmin w
        = Done OK
            (mkWorld (set_wal_mgr_ (Some (mkService false))
                        (set_current_storage_mode_ kAdmin
                           (set_cleanup_info_tracer_ (Some object) (storage w))))
                     (remote_store_init w)) tr
        /\ filter is_wal_event tr = [EvConstruct Wal]
  end.
Proof.
  intros Hm. break_world w. unfold mode_of in Hm. cbn in Hm. subst mode. cbn.
  destruct wal, ct; eexists; vm_compute; repeat split.
Qed.

Lemma uninitialized_to_admin_witness :
  exists tr,
    SetStorageMode cfg_local env_fresh kAdmin (new_World kPhaseNone)
    = Done OK admin_world tr
    /\ filter is_wal_event tr = [EvConstruct Wal].
Proof.
  exact (uninitialized_to_admin cfg_local env_fresh (new_World kPhaseNone) eq_refl).
Defined.

(** X9: from any world in the uninitialised mode, [SetStorageMode] to the
    readable or the writable mode aborts; nothing but the cleanup tracer
    has been constructed by then. *)
Theorem uninitialized_rejects_data_modes cfg env target w :
  mode_of w = kUnInitialized ->
  target = kReadable \/ target = kWritable ->
  exists tr,
    SetStorageMode cfg env target w
    = Fatal "Attempt to set storage mode from UnInit to UnInit" tr
    /\ (tr = [EvConstruct CleanupTracer]
        \/ tr = [EvConstruct CleanupTracer; EvDrop CleanupTracer]).
Proof.
  intros Hm Ht. break_world w. unfold mode_of in Hm. cbn in Hm. subst mode.
  destruct Ht as [-> | ->]; destruct ct; eexists; (split; [vm_compute; reflexivity|]);
    auto.
Qed.

Lemma uninitialized_rejects_data_modes_witness :
  exists tr,
    SetStorageMode cfg_local env_fresh kWritable (new_World kPhaseNone)
    = Fatal "Attempt to set storage mode from UnInit to UnInit" tr
    /\ (tr = [EvConstruct CleanupTracer]
        \/ tr = [EvConstruct CleanupTracer; EvDrop CleanupTracer]).
Proof.
  apply (uninitialized_rejects_data_modes cfg_local env_fresh kWritable
           (new_World kPhaseNone)).
  - reflexivity.
  - right; reflexivity.
Defined.

(* ------------------------------------------------------------------ *)
(** ** The bring-up, in full *)

(** Bring a reachable world into the shape its mode prescribes. *)
Ltac shape_world Hrun w cfg :=
  let Hr := fresh "Hr" in
  let Hc := fresh "Hc" in
  let Hs := fresh "Hs" in
  match type of Hrun with
  | run _ ?ops (new_World ?phase) = _ =>
      assert (Hr : reachable cfg w) by (exists phase, ops; exact Hrun)
  end;
  pose proof (reachable_consistent cfg w Hr) as Hc;
  pose proof (reachable_settled cfg w Hr) as Hs;
  clear Hrun Hr;
  break_world w; destruct cfg as [ty dir rcfg cnum cpi opi cli fci dci];
  unfold consistent, settled, started, mode_of, phase_of, remote, persistent,
    unsupported, writable_periodic, cleanup_periodic in *;
  cbn [storage remote_store_init current_storage_mode_ reader_init_phase_
       StorageType_ PersistenceDir] in *.

Ltac normal_objects :=
  repeat match goal with
  | s : Service |- _ => destruct s
  | o : Object |- _ => destruct o
  end;
  cbn in * |-; subst.

(** X10: the bring-up of a reader from a reachable world in the admin
    mode, when the storage type is supported and the remote store, if any,
    initialises.  The call returns OK at the first phase: the persistence
    manager (for a non-empty directory), the object storage processor (for
    remote storage), the result cache (unless there is one) and the buffer
    manager have been constructed and the two services started; no
    catalog, transaction manager, background processor, tracer or periodic
    thread exists yet, and the WAL manager has not been touched: it is
    neither replayed nor started. *)
Theorem reader_bring_up cfg phase ops env w :
  run cfg ops (new_World phase) = Some w ->
  mode_of w = kAdmin ->
  unsupported cfg = false ->
  (remote cfg = true -> init_remote_status env = OK) ->
  exists tr,
    SetStorageMode cfg env kReadable w
    = Done OK (mkWorld (brought_up_reader cfg (storage w)) (remote cfg)) tr
    /\ existsb is_wal_event tr = false.
Proof.
  intros Hrun Hm Hty Hst. destruct env as [st0 ts att cst].
  cbn [init_remote_status] in Hst.
  shape_world Hrun w cfg. subst mode. cbn in Hc, Hs. some_none. subst.
  destruct ty; try discriminate Hty; try (specialize (Hst eq_refl); subst st0).
  all: match goal with |- context [SetStorageMode ?c ?e ?t ?w] =>
         destruct (SetStorageMode c e t w) eqn:Hr end;
       run_model Hr; injection Hr as <- <- <-;
       unfold brought_up_reader, cache_after_bring_up, remote, persistent; cbn;
       use_tests; eexists; split; reflexivity.
Qed.

Lemma reader_bring_up_witness :
  exists tr,
    SetStorageMode cfg_local env_fresh kReadable admin_world
    = Done OK reader_phase1_world tr
    /\ existsb is_wal_event tr = false.
Proof.
  apply (reader_bring_up cfg_local kPhaseNone [set_mode_ok kAdmin] env_fresh admin_world).
  - vm_compute; reflexivity.
  - reflexivity.
  - reflexivity.
  - discriminate.
Defined.

(** X11: the bring-up of a writer from a reachable world in the admin mode
    that has its WAL manager, when the storage type is supported and the
    remote store, if any, initialises.  If the replay returns a timestamp
    other than 0 without having attached a catalog, the call goes through
    the null catalog.  If it returns 0 and creating the default database
    fails, the process aborts.  In every other case the call returns OK in
    the writable mode with every member constructed and started, the
    catalog prepared, the five triggers installed with their configured
    intervals, the cleanup trigger registered with the background
    processor, and the reader phase untouched. *)
Theorem writer_bring_up cfg phase ops env w :
  run cfg ops (new_World phase) = Some w ->
  mode_of w = kAdmin ->
  is_some (wal_mgr_ (storage w)) = true ->
  unsupported cfg = false ->
  (remote cfg = true -> init_remote_status env = OK) ->
  writer_bring_up_outcome cfg env w (SetStorageMode cfg env kWritable w).
Proof.
  intros Hrun Hm Hw Hty Hst. unfold writer_bring_up_outcome.
  destruct env as [st0 ts att cst].
  cbn [init_remote_status replay_ts replay_attaches_catalog create_db_status] in *.
  shape_world Hrun w cfg. subst mode. cbn in Hc, Hs, Hw. some_none. subst.
  destruct ty; try discriminate Hty; try (specialize (Hst eq_refl); subst st0).
  all: match goal with |- context [SetStorageMode ?c ?e ?t ?w] =>
         remember (SetStorageMode c e t w) as out eqn:Hr end;
       symmetry in Hr; unfold_model Hr;
       repeat (split_stuck Hr; cbv beta iota in Hr); subst out; cbv beta iota.
  all: unfold brought_up_writer, catalog_after_bring_up, cache_after_bring_up,
         writable_periodic, remote, persistent; cbn.
  all: cbn [CompactInterval OptimizeIndexInterval CleanupInterval
            FullCheckpointInterval DeltaCheckpointInterval CacheResultNum] in *.
  all: use_tests.
  all: repeat match goal with
       | H : (_ =? 0) = true |- _ => apply Z.eqb_eq in H
       | H : (_ =? 0) = false |- _ => apply Z.eqb_neq in H
       end.
  all: cbn; repeat split; auto; try congruence; try discriminate.
Qed.

Lemma writer_bring_up_witness :
  writer_bring_up_outcome cfg_local env_fresh admin_world
    (SetStorageMode cfg_local env_fresh kWritable admin_world).
Proof.
  apply (writer_bring_up cfg_local kPhaseNone [set_mode_ok kAdmin] env_fresh admin_world).
  - vm_compute; reflexivity.
  - reflexivity.
  - reflexivity.
  - reflexivity.
  - discriminate.
Defined.

(** The bring-up of the samples: a first start, and a start after a replay
    that did not attach a catalog. *)
Example first_start_brings_up_writer :
  exists tr,
    SetStorageMode cfg_local env_fresh kWritable admin_world
    = Done OK writable_world tr.
Proof. eexists; vm_compute; reflexivity. Qed.

Example replay_without_catalog :
  ending (SetStorageMode cfg_local (mkEnv OK 42 false OK) kWritable admin_world)
  = CalledThroughNull.
Proof. vm_compute; reflexivity. Qed.


(* ------------------------------------------------------------------ *)
(** ** The reader's second phase *)

(** X12: outside the readable mode [SetReaderStorageContinue] aborts at
    once, in any world: the process ends on the check of the mode, before
    anything is initialised, constructed or started. *)
Theorem continue_outside_readable cfg ts w :
  mode_of w <> kReadable ->
  ending (SetReaderStorageContinue cfg ts w) = Aborted
  /\ trace_of (SetReaderStorageContinue cfg ts w) = [].
Proof.
  intros Hm. break_world w. unfold mode_of in Hm. cbn in Hm.
  destruct mode; try congruence; split; reflexivity.
Qed.

Lemma continue_outside_readable_witness :
  ending (SetReaderStorageContinue cfg_local 42 admin_world) = Aborted
  /\ trace_of (SetReaderStorageContinue cfg_local 42 admin_world) = [].
Proof.
  apply (continue_outside_readable cfg_local 42 admin_world). discriminate.
Defined.

(** X13: [SetReaderStorageContinue] in a reachable world in the readable
    mode.  It does not look at the reader phase.  When the periodic thread
    is there (the reader is past its bootstrap, or is a demoted writer) the
    process aborts on the background processor.  Otherwise the call needs
    the WAL manager and a catalog attached before: without either it goes
    through a null pointer; with both it returns OK in the second phase,
    the background processor, the transaction manager, the memory index
    tracer and a periodic thread with the cleanup trigger constructed, the
    WAL manager started, and no compaction processor. *)
Theorem continue_in_readable cfg phase ops ts w :
  run cfg ops (new_World phase) = Some w ->
  mode_of w = kReadable ->
  continue_outcome cfg w (SetReaderStorageContinue cfg ts w).
Proof.
  intros Hrun Hm. unfold continue_outcome.
  shape_world Hrun w cfg. subst mode. cbn in Hc, Hs. some_none. subst.
  destruct pt; cbn in * |-; some_none; subst.
  all: match goal with |- context [SetReaderStorageContinue ?c ?t ?w] =>
         remember (SetReaderStorageContinue c t w) as out eqn:Hr end;
       symmetry in Hr; unfold_model Hr;
       repeat (split_stuck Hr; cbv beta iota in Hr); subst out; cbv beta iota zeta.
  all: unfold continued_reader, cleanup_periodic; cbn;
       repeat split; auto; try discriminate.
  all: eexists; split; reflexivity.
Qed.

Lemma continue_in_readable_witness :
  continue_outcome cfg_local reader_with_catalog_world
    (SetReaderStorageContinue cfg_local 42 reader_with_catalog_world).
Proof.
  apply (continue_in_readable cfg_local kPhaseNone
           [set_mode_ok kAdmin; set_mode_ok kReadable; OpAttachCatalog 2]).
  - vm_compute; reflexivity.
  - reflexivity.
Defined.

(** The reader of the sample, after its catalog was attached, reaches the
    second phase; without the catalog the call goes through null. *)
Example reader_bootstrap :
  exists w' tr,
    SetReaderStorageContinue cfg_local 42 reader_with_catalog_world = Done OK w' tr
    /\ phase_of w' = kPhase2
    /\ periodic_trigger_thread_ (storage w') = Some (cleanup_periodic cfg_local).
Proof. eexists _, _. vm_compute. repeat split. Qed.

Example reader_bootstrap_without_catalog :
  ending (SetReaderStorageContinue cfg_local 42 reader_phase1_world)
  = CalledThroughNull.
Proof. vm_compute; reflexivity. Qed.

(* ------------------------------------------------------------------ *)
(** ** Promotion, demotion and tear-down, in full *)

(** X14: the promotion of a reader, in a reachable world in the readable
    mode.  With the periodic thread there, the call returns OK: the
    compaction processor is constructed and started, the periodic thread
    stopped, given the four triggers of a writer and started again, the
    mode is writable, and every other member is as before.  Without it
    (the reader is still in its first phase) the compaction processor is
    constructed and started and then [Stop] is called through the null
    periodic thread. *)
Theorem promotion cfg phase ops env w :
  run cfg ops (new_World phase) = Some w ->
  mode_of w = kReadable ->
  SetStorageMode cfg env kWritable w
  = if is_some (periodic_trigger_thread_ (storage w))
    then Done OK (mkWorld (promoted cfg (storage w)) (remote_store_init w))
           [EvConstruct CleanupTracer; EvDrop CleanupTracer;
            EvConstruct Compactor; EvStart Compactor;
            EvStop PeriodicThread; EvStart PeriodicThread]
    else NullDeref [EvConstruct CleanupTracer; EvDrop CleanupTracer;
                    EvConstruct Compactor; EvStart Compactor].
Proof.
  intros Hrun Hm.
  shape_world Hrun w cfg. subst mode. cbn in Hc, Hs. some_none. subst.
  destruct pt; cbn in * |-; some_none; subst; normal_objects; reflexivity.
Qed.

Lemma promotion_witness :
  SetStorageMode cfg_local env_fresh kWritable reader_phase1_world
  = NullDeref [EvConstruct CleanupTracer; EvDrop CleanupTracer;
               EvConstruct Compactor; EvStart Compactor].
Proof.
  apply (promotion cfg_local kPhaseNone [set_mode_ok kAdmin; set_mode_ok kReadable]
           env_fresh reader_phase1_world).
  - vm_compute; reflexivity.
  - reflexivity.
Defined.

(** X15: the tear-down, in a reachable world in the writable mode, or in
    the readable mode with the reader in its second phase.
    [SetStorageMode] to the uninitialised or the admin mode returns OK;
    afterwards every member is null but the result cache, which is the one
    before, and the cleanup tracer; the remote store is not initialised;
    and for the admin mode there is a new WAL manager, not started. *)
Theorem tear_down cfg phase ops env target w :
  run cfg ops (new_World phase) = Some w ->
  mode_of w = kWritable \/ (mode_of w = kReadable /\ phase_of w = kPhase2) ->
  target = kUnInitialized \/ target = kAdmin ->
  exists tr,
    SetStorageMode cfg env target w
    = Done OK (mkWorld (torn_down target (storage w)) false) tr.
Proof.
  intros Hrun Hm Ht.
  shape_world Hrun w cfg.
  destruct Hm as [-> | [-> ->]]; cbn in Hc, Hs.
  2: destruct Hc as (? & ? & ? & ? & ? & ? & ? & ? & ? & ? & Hpt & Hph);
     specialize (Hph eq_refl); specialize (Hpt Hph).
  all: some_none; subst; cbn in * |-; some_none; subst.
  all: destruct osp; cbn in * |-; some_none; subst; try discriminate.
  all: destruct Ht as [-> | ->].
  all: match goal with |- context [SetStorageMode ?c ?e ?t ?w] =>
         destruct (SetStorageMode c e t w) eqn:Hr end;
       run_model Hr; try discriminate;
       injection Hr as <- <- <-; eexists; unfold torn_down; cbn;
       normal_objects; reflexivity.
Qed.

Lemma tear_down_witness :
  exists tr,
    SetStorageMode cfg_minio env_fresh kUnInitialized minio_writable_world
    = Done OK torn_down_world tr.
Proof.
  apply (tear_down cfg_minio kPhaseNone [set_mode_ok kAdmin; set_mode_ok kWritable]
           env_fresh kUnInitialized minio_writable_world).
  - vm_compute; reflexivity.
  - left; reflexivity.
  - left; reflexivity.
Defined.

(** X16: demotion and promotion undo each other.  From a reachable world
    in the writable mode, [SetStorageMode(kReadable)] followed by
    [SetStorageMode(kWritable)] returns OK twice and ends in the world it
    started in; and from a reachable world in the readable mode whose
    periodic thread is there, promotion followed by demotion does. *)
Theorem demotion_promotion_round_trip cfg phase ops env1 env2 w :
  run cfg ops (new_World phase) = Some w ->
  (mode_of w = kWritable ->
   exists w1 t1 t2,
     SetStorageMode cfg env1 kReadable w = Done OK w1 t1
     /\ SetStorageMode cfg env2 kWritable w1 = Done OK w t2)
  /\ (mode_of w = kReadable ->
      is_some (periodic_trigger_thread_ (storage w)) = true ->
      exists w1 t1 t2,
        SetStorageMode cfg env1 kWritable w = Done OK w1 t1
        /\ SetStorageMode cfg env2 kReadable w1 = Done OK w t2).
Proof.
  intros Hrun. destruct env1 as [a1 b1 c1 d1], env2 as [a2 b2 c2 d2].
  shape_world Hrun w cfg. split; intros Hm; [| intros Hp].
  all: subst mode; cbn in Hc, Hs; try cbn in Hp; some_none; subst.
  all: cbn in * |-; some_none; subst; normal_objects.
  all: match goal with |- context [SetStorageMode ?c ?e ?t ?w] =>
         destruct (SetStorageMode c e t w) eqn:Hr1 end;
       run_model Hr1; try discriminate; injection Hr1 as <- <- <-.
  all: eexists _, _, _; split; [reflexivity |].
  all: match goal with |- SetStorageMode ?c ?e ?t ?w = _ =>
         destruct (SetStorageMode c e t w) eqn:Hr2 end;
       run_model Hr2; try discriminate; injection Hr2 as <- <- <-.
  all: reflexivity.
Qed.

Lemma demotion_promotion_round_trip_witness :
  exists w1 t1 t2,
    SetStorageMode cfg_local env_fresh kReadable writable_world = Done OK w1 t1
    /\ SetStorageMode cfg_local env_replayed kWritable w1 = Done OK writable_world t2.
Proof.
  refine (proj1 (demotion_promotion_round_trip cfg_local kPhaseNone
                   [set_mode_ok kAdmin; set_mode_ok kWritable] env_fresh env_replayed
                   writable_world _) eq_refl).
  vm_compute; reflexivity.
Defined.

(* ------------------------------------------------------------------ *)
(** ** The catalog entry points *)

Lemma delta_step w c :
  new_catalog_ (storage w) = Some c ->
  AttachDeltaCheckpoint w
  = Done tt (with_catalog (Some (with_deltas 1 c)) w) [EvAttachDeltaCheckpoint].
Proof.
  intros Hc. destruct w as [s i]. destruct s. cbn in Hc. subst. reflexivity.
Qed.

(** X17: a full checkpoint is loaded once.  After [LoadFullCheckpoint] or
    [AttachCatalog] has returned, from any world, a [LoadFullCheckpoint]
    aborts with "Catalog was already initialized before." and touches
    nothing, while an [AttachCatalog] returns: it replaces the catalog by
    the loaded one and drops the old one. *)
Theorem full_checkpoint_only_once deltas w u w' tr :
  LoadFullCheckpoint w = Done u w' tr \/ AttachCatalog deltas w = Done u w' tr ->
  LoadFullCheckpoint w' = Fatal "Catalog was already initialized before." []
  /\ forall n,
       AttachCatalog n w'
       = Done tt (with_catalog (Some (LoadFromFiles n)) w')
           [EvLoadCatalog n; EvConstruct CatalogC; EvDrop CatalogC].
Proof.
  intros H. destruct w as [s i]. destruct s as [? ? ? cat ? ? ? ? ? ? ? ? ? ?].
  destruct H as [H | H]; [destruct cat; [discriminate H|] |];
    cbv in H; try (destruct cat; cbv in H);
    injection H as <- <- <-; split; reflexivity.
Qed.

Lemma full_checkpoint_only_once_witness :
  LoadFullCheckpoint (with_catalog (Some (LoadFromFiles 0)) admin_world)
  = Fatal "Catalog was already initialized before." [].
Proof.
  refine (proj1 (full_checkpoint_only_once 0 admin_world tt _ _ (or_introl _))).
  reflexivity.
Defined.

(** X18: the delta checkpoints are counted.  With a catalog in place, [n]
    calls of [AttachDeltaCheckpoint] return, with one event each; the
    catalog has [n] more delta checkpoints and is otherwise as before, and
    so is every other member.  Without a catalog the first call goes
    through the null pointer. *)
Theorem delta_checkpoints_counted n : forall w,
  match new_catalog_ (storage w) with
  | Some c =>
      attach_deltas n w
      = Done tt (with_catalog (Some (with_deltas n c)) w)
          (repeat EvAttachDeltaCheckpoint n)
  | None => attach_deltas (S n) w = NullDeref []
  end.
Proof.
  induction n as [| n IH]; intros w.
  - destruct w as [s i]. destruct s as [? ? ? cat ? ? ? ? ? ? ? ? ? ?].
    destruct cat as [c|]; [destruct c|]; reflexivity.
  - destruct (new_catalog_ (storage w)) as [c|] eqn:Hc.
    + change (attach_deltas (S n)) with (AttachDeltaCheckpoint ;; attach_deltas n).
      unfold bind. rewrite (delta_step w c Hc).
      specialize (IH (with_catalog (Some (with_deltas 1 c)) w)).
      cbn [with_catalog storage new_catalog_ set_new_catalog_] in IH.
      rewrite IH.
      replace (with_deltas n (with_deltas 1 c)) with (with_deltas (S n) c)
        by (unfold with_deltas; cbn; f_equal; lia).
      destruct w as [s i]. destruct s. reflexivity.
    + destruct w as [s i]. destruct s. cbn in Hc. subst. reflexivity.
Qed.

(* ------------------------------------------------------------------ *)
(** ** Every change of mode begins with a new cleanup tracer *)

Lemma trace_bind_head {A B} (m : M A) (k : A -> M B) w a w1 e t :
  m w = Done a w1 (e :: t) ->
  exists rest, trace_of (bind m k w) = e :: rest.
Proof.
  intros H. unfold bind. rewrite H.
  destruct (k a w1); cbn; eexists; reflexivity.
Qed.

Lemma trace_bind_ret {A B} (m : M A) (k : A -> M B) w a :
  m w = Done a w [] -> trace_of (bind m k w) = trace_of (k a w).
Proof.
  intros H. unfold bind. rewrite H. destruct (k a w); reflexivity.
Qed.

(** X19: whatever the world, the environment and the outcome, a
    [SetStorageMode] whose target differs from the current mode first
    constructs a new cleanup tracer; a call with the current mode as its
    target never does. *)
Theorem cleanup_tracer_first cfg env target w :
  if StorageMode_eqb (mode_of w) target
  then ~ In (EvConstruct CleanupTracer)
           (trace_of (SetStorageMode cfg env target w))
  else exists rest,
         trace_of (SetStorageMode cfg env target w)
         = EvConstruct CleanupTracer :: rest.
Proof.
  unfold SetStorageMode, mode_of.
  rewrite (trace_bind_ret _ _ w (current_storage_mode_ (storage w)) eq_refl).
  cbv beta.
  destruct (StorageMode_eqb (current_storage_mode_ (storage w)) target).
  - cbv. intros [H | []]. discriminate H.
  - destruct w as [s i]. destruct s as [mode ? ? ? ? ? ? ? ? ? ? ? ? ct].
    destruct ct; eapply trace_bind_head; reflexivity.
Qed.

(* ------------------------------------------------------------------ *)
(** ** The segment entry *)

(** X20: [AvailableCapacity] subtracts in [SizeT].  For counters in range
    the result is in range; it is the number of free rows when the segment
    holds at most [row_capacity_] rows, and otherwise it wraps around to
    [2^64] less the excess: the function never reports a full or an
    overfull segment as having no room unless [current_row_] equals
    [row_capacity_]. *)
Theorem AvailableCapacity_wraps e :
  0 <= row_capacity_ e < SizeT_modulus ->
  0 <= current_row_ e < SizeT_modulus ->
  0 <= AvailableCapacity e < SizeT_modulus
  /\ (current_row_ e <= row_capacity_ e ->
      AvailableCapacity e = row_capacity_ e - current_row_ e)
  /\ (row_capacity_ e < current_row_ e ->
      AvailableCapacity e = SizeT_modulus - (current_row_ e - row_capacity_ e))
  /\ (AvailableCapacity e = 0 <-> current_row_ e = row_capacity_ e).
Proof.
  intros Hc Hr. unfold AvailableCapacity, SizeT_modulus in *.
  assert (Hlow : current_row_ e <= row_capacity_ e ->
                 (row_capacity_ e - current_row_ e) mod 2 ^ 64
                 = row_capacity_ e - current_row_ e)
    by (intros; apply Z.mod_small; lia).
  assert (Hhigh : row_capacity_ e < current_row_ e ->
                  (row_capacity_ e - current_row_ e) mod 2 ^ 64
                  = 2 ^ 64 - (current_row_ e - row_capacity_ e)).
  { intros.
    replace (row_capacity_ e - current_row_ e)
      with ((2 ^ 64 - (current_row_ e - row_capacity_ e)) + (-1) * 2 ^ 64) by lia.
    rewrite Z.mod_add by lia. apply Z.mod_small; lia. }
  repeat split; auto.
  - apply Z.mod_pos_bound; lia.
  - apply Z.mod_pos_bound; lia.
  - intros H0. destruct (Z_le_gt_dec (current_row_ e) (row_capacity_ e)).
    + rewrite Hlow in H0 by lia. lia.
    + rewrite Hhigh in H0 by lia. lia.
  - intros ->. rewrite Z.sub_diag. reflexivity.
Qed.

Lemma AvailableCapacity_wraps_witness :
  AvailableCapacity (mkSegmentEntry 8192 8193) = SizeT_modulus - (8193 - 8192).
Proof.
  refine (proj1 (proj2 (proj2 (AvailableCapacity_wraps (mkSegmentEntry 8192 8193) _ _))) _);
    cbn; unfold SizeT_modulus; lia.
Defined.

(* ------------------------------------------------------------------ *)
(** ** What a returning change of mode leaves *)

(** X21: the mode and the reader phase after [SetStorageMode] has
    returned, from a reachable world.  The call returns OK or, from the
    admin mode with remote storage, the error of the remote store.  With
    OK the mode is the target, but for the step from the admin mode to the
    uninitialised one, which leaves the admin mode; the reader phase is as
    before, but for the bring-up of a reader, which sets the first phase.
    With the error the world is the one before the call. *)
Theorem mode_after_return cfg phase ops env target w st w' tr :
  run cfg ops (new_World phase) = Some w ->
  SetStorageMode cfg env target w = Done st w' tr ->
  if ok st
  then st = OK
       /\ mode_of w' = mode_after (mode_of w) target
       /\ phase_of w' = phase_after (mode_of w) target (phase_of w)
  else st = init_remote_status env
       /\ mode_of w = kAdmin /\ remote cfg = true /\ w' = w.
Proof.
  intros Hrun Hr.
  assert (Hc : consistent cfg w)
    by (apply reachable_consistent; exists phase, ops; exact Hrun).
  clear Hrun. break_world w. destruct cfg as [ty dir ? ? ? ? ? ? ?], env.
  unfold consistent, remote, persistent, mode_of, phase_of in *.
  destruct mode; cbn in Hc; some_none; subst.
  3: destruct pt; cbn in *; some_none.
  all: destruct target; run_model Hr; injection Hr as <- <- <-.
  all: cbn; repeat split; try reflexivity; try discriminate.
  all: repeat match goal with o : Object |- _ => destruct o end;
       try reflexivity.
Qed.

Lemma mode_after_return_witness :
  OK = OK
  /\ mode_of admin_world_without_wal = mode_after (mode_of admin_world) kUnInitialized
  /\ phase_of admin_world_without_wal
     = phase_after (mode_of admin_world) kUnInitialized (phase_of admin_world).
Proof.
  refine (mode_after_return cfg_local kPhaseNone [set_mode_ok kAdmin]
            env_fresh kUnInitialized admin_world OK admin_world_without_wal
            _ _ _).
  - vm_compute; reflexivity.
  - vm_compute; reflexivity.
Defined.

(* ------------------------------------------------------------------ *)
(** ** The bootstrap of a reader, and the admin mode without its WAL manager *)

Lemma run_cons_mode cfg env target rest w st w' tr :
  SetStorageMode cfg env target w = Done st w' tr ->
  run cfg (OpSetStorageMode env target :: rest) w = run cfg rest w'.
Proof.
  intros H. cbn [run permitted run_op]. unfold bind. rewrite H. reflexivity.
Qed.

Lemma run_cons_attach cfg deltas rest w u w' tr :
  mode_of w = kReadable ->
  AttachCatalog deltas w = Done u w' tr ->
  run cfg (OpAttachCatalog deltas :: rest) w = run cfg rest w'.
Proof.
  intros Hm H. cbn [run permitted run_op]. unfold mode_of in Hm.
  rewrite Hm, H. reflexivity.
Qed.

Lemma run_cons_continue cfg ts rest w st w' tr :
  SetReaderStorageContinue cfg ts w = Done st w' tr ->
  run cfg (OpSetReaderStorageContinue ts :: rest) w = run cfg rest w'.
Proof.
  intros H. cbn [run permitted run_op]. unfold bind. rewrite H. reflexivity.
Qed.

Lemma bootstrap_steps cfg phase ops env deltas ts w :
  run cfg ops (new_World phase) = Some w ->
  mode_of w = kAdmin ->
  is_some (wal_mgr_ (storage w)) = true ->
  unsupported cfg = false ->
  (remote cfg = true -> init_remote_status env = OK) ->
  exists w1 w2 t1 t2 t3,
    SetStorageMode cfg env kReadable w = Done OK w1 t1
    /\ mode_of w1 = kReadable
    /\ AttachCatalog deltas w1 = Done tt w2 t2
    /\ SetReaderStorageContinue cfg ts w2
       = Done OK
           (mkWorld (continued_reader cfg (LoadFromFiles deltas)
                       (brought_up_reader cfg (storage w))) (remote cfg)) t3.
Proof.
  intros Hrun Hm Hw Hty Hst. destruct env as [st0 ts0 att cst].
  cbn [init_remote_status] in Hst.
  shape_world Hrun w cfg. subst mode. cbn in Hc, Hs, Hw. some_none. subst.
  destruct ty; try discriminate Hty; try (specialize (Hst eq_refl); subst st0).
  all: match goal with |- context [SetStorageMode ?c ?e ?t ?w] =>
         destruct (SetStorageMode c e t w) eqn:Hr1 end;
       run_model Hr1; injection Hr1 as <- <- <-.
  all: eexists _, _, _, _, _; split; [reflexivity |]; split; [reflexivity |].
  all: split; [reflexivity |].
  all: match goal with |- SetReaderStorageContinue ?c ?t ?w = _ =>
         destruct (SetReaderStorageContinue c t w) eqn:Hr2 end;
       run_model Hr2; injection Hr2 as <- <- <-.
  all: unfold continued_reader, brought_up_reader, cache_after_bring_up,
         cleanup_periodic, remote, persistent; cbn; use_tests; reflexivity.
Qed.

(** X22: the bootstrap of a reader runs through.  From a reachable world
    in the admin mode that has its WAL manager, with a supported storage
    type and a remote store that initialises, the three calls
    [SetStorageMode(kReadable)], [AttachCatalog] and
    [SetReaderStorageContinue] all return, and the reader ends in the
    second phase with the attached catalog committing its memory index,
    the WAL manager and the transaction manager started, and the periodic
    thread running with the cleanup trigger only. *)
Theorem reader_bootstrap_completes cfg phase ops env deltas ts w :
  run cfg ops (new_World phase) = Some w ->
  mode_of w = kAdmin ->
  is_some (wal_mgr_ (storage w)) = true ->
  unsupported cfg = false ->
  (remote cfg = true -> init_remote_status env = OK) ->
  run cfg [OpSetStorageMode env kReadable; OpAttachCatalog deltas;
           OpSetReaderStorageContinue ts] w
  = Some (mkWorld (continued_reader cfg (LoadFromFiles deltas)
                     (brought_up_reader cfg (storage w))) (remote cfg)).
Proof.
  intros Hrun Hm Hw Hty Hst.
  destruct (bootstrap_steps cfg phase ops env deltas ts w Hrun Hm Hw Hty Hst)
    as (w1 & w2 & t1 & t2 & t3 & H1 & Hm1 & H2 & H3).
  rewrite (run_cons_mode _ _ _ _ _ _ _ _ H1).
  rewrite (run_cons_attach _ _ _ _ _ _ _ Hm1 H2).
  rewrite (run_cons_continue _ _ _ _ _ _ _ H3).
  reflexivity.
Qed.

Lemma reader_bootstrap_completes_witness :
  run cfg_local [OpSetStorageMode env_fresh kReadable; OpAttachCatalog 2;
                 OpSetReaderStorageContinue 42] admin_world
  = Some (mkWorld (continued_reader cfg_local (LoadFromFiles 2)
                     (brought_up_reader cfg_local (storage admin_world)))
            (remote cfg_local)).
Proof.
  apply (reader_bootstrap_completes cfg_local kPhaseNone [set_mode_ok kAdmin]
           env_fresh 2 42 admin_world).
  - vm_compute; reflexivity.
  - reflexivity.
  - reflexivity.
  - reflexivity.
  - discriminate.
Defined.

(** X23: the step from the admin mode to the uninitialised one, in a
    reachable world.  The call returns OK and drops the WAL manager, and
    that is all: the mode it leaves is still the admin mode.  A second
    such call returns OK again and changes nothing, and a bring-up of a
    writer from the world it leaves, with a supported storage type and a
    remote store that initialises, calls [ReplayWalFile] through the null
    WAL manager. *)
Theorem admin_to_uninitialized cfg phase ops env w :
  run cfg ops (new_World phase) = Some w ->
  mode_of w = kAdmin ->
  let w' := mkWorld (set_wal_mgr_ None (storage w)) (remote_store_init w) in
  (exists tr, SetStorageMode cfg env kUnInitialized w = Done OK w' tr)
  /\ (exists tr, SetStorageMode cfg env kUnInitialized w' = Done OK w' tr)
  /\ (unsupported cfg = false ->
      (remote cfg = true -> init_remote_status env = OK) ->
      ending (SetStorageMode cfg env kWritable w') = CalledThroughNull).
Proof.
  intros Hrun Hm. destruct env as [st0 ts0 att cst].
  cbn [init_remote_status].
  shape_world Hrun w cfg. subst mode. cbn in Hc, Hs. some_none. subst.
  normal_objects. cbn zeta.
  split; [| split].
  - destruct wal; eexists; vm_compute; reflexivity.
  - eexists; vm_compute; reflexivity.
  - intros Hty Hst.
    destruct ty; try discriminate Hty; try (specialize (Hst eq_refl); subst st0).
    all: match goal with |- context [SetStorageMode ?c ?e ?t ?w] =>
           remember (SetStorageMode c e t w) as out eqn:Hr end;
         symmetry in Hr; unfold_model Hr;
         repeat (split_stuck Hr; cbv beta iota in Hr); subst out; reflexivity.
Qed.

Lemma admin_to_uninitialized_witness :
  exists tr,
    SetStorageMode cfg_local env_fresh kUnInitialized admin_world
    = Done OK admin_world_without_wal tr.
Proof.
  refine (proj1 (admin_to_uninitialized cfg_local kPhaseNone [set_mode_ok kAdmin]
                   env_fresh admin_world _ _)).
  - vm_compute; reflexivity.
  - reflexivity.
Defined.

(* ------------------------------------------------------------------ *)
(** ** The storage type and the remote store at a bring-up *)

(** X24: with a storage type that is neither local nor MinIO no data mode
    is ever reached.  From any world in the admin mode, a bring-up of a
    reader or of a writer aborts on the storage type once the cleanup
    tracer has been renewed, before any other member is built; and every
    reachable world is in the uninitialised or the admin mode. *)
Theorem unsupported_storage_type cfg :
  unsupported cfg = true ->
  (forall env target w,
     mode_of w = kAdmin -> target = kReadable \/ target = kWritable ->
     ending (SetStorageMode cfg env target w) = Aborted
     /\ trace_of (SetStorageMode cfg env target w)
        = EvConstruct CleanupTracer
          :: (if is_some (cleanup_info_tracer_ (storage w))
              then [EvDrop CleanupTracer] else []))
  /\ (forall phase ops w,
        run cfg ops (new_World phase) = Some w ->
        mode_of w = kUnInitialized \/ mode_of w = kAdmin).
Proof.
  intros Hty. split.
  - intros env target w Hm Ht. break_world w.
    destruct cfg as [ty dir rcfg cnum cpi opi cli fci dci].
    unfold unsupported, mode_of in *. cbn in Hty, Hm. subst mode.
    destruct ty; try discriminate Hty.
    destruct Ht as [-> | ->]; destruct ct; split; reflexivity.
  - intros phase ops w Hrun.
    assert (Hs : settled cfg w)
      by (apply reachable_settled; exists phase, ops; exact Hrun).
    unfold settled in Hs. decompose [and] Hs. clear Hs.
    unfold mode_of. destruct (current_storage_mode_ (storage w)); auto; congruence.
Qed.

Lemma unsupported_storage_type_witness :
  ending (SetStorageMode (mkConfig kUnsupported "/var/infinity" "on" 100 10 10 10 30 5)
            env_fresh kWritable admin_world) = Aborted
  /\ trace_of (SetStorageMode
                 (mkConfig kUnsupported "/var/infinity" "on" 100 10 10 10 30 5)
                 env_fresh kWritable admin_world)
     = [EvConstruct CleanupTracer; EvDrop CleanupTracer].
Proof.
  refine (proj1 (unsupported_storage_type
                   (mkConfig kUnsupported "/var/infinity" "on" 100 10 10 10 30 5) _)
            env_fresh kWritable admin_world _ _).
  - reflexivity.
  - reflexivity.
  - right; reflexivity.
Defined.

(** X25: the remote store is initialised once.  With the storage type
    [kMinio], a bring-up from any world in the admin mode whose remote
    store is initialised already aborts with "remote storage system was
    initialized before." as soon as the cleanup tracer has been renewed:
    nothing else is constructed, started or dropped. *)
Theorem remote_store_initialised_once cfg env target w :
  remote cfg = true ->
  mode_of w = kAdmin ->
  remote_store_init w = true ->
  target = kReadable \/ target = kWritable ->
  SetStorageMode cfg env target w
  = Fatal "remote storage system was initialized before."
      (EvConstruct CleanupTracer
       :: if is_some (cleanup_info_tracer_ (storage w))
          then [EvDrop CleanupTracer] else []).
Proof.
  intros Hty Hm Hi Ht. break_world w.
  destruct cfg as [ty dir rcfg cnum cpi opi cli fci dci].
  unfold remote, mode_of in *. cbn in Hty, Hm, Hi. subst.
  destruct ty; try discriminate Hty.
  destruct Ht as [-> | ->]; destruct ct; reflexivity.
Qed.

Lemma remote_store_initialised_once_witness :
  SetStorageMode cfg_minio env_fresh kReadable
    (mkWorld (storage admin_world) true)
  = Fatal "remote storage system was initialized before."
      [EvConstruct CleanupTracer; EvDrop CleanupTracer].
Proof.
  apply (remote_store_initialised_once cfg_minio env_fresh kReadable
           (mkWorld (storage admin_world) true)).
  - reflexivity.
  - reflexivity.
  - reflexivity.
  - left; reflexivity.
Defined.
